(** * TMDbCache: a persistent, TTL-based cache of TMDB query results

    Shallow embedding of [torcp/tmdbcache.py] and the properties of its
    specification.  The class keeps an in-memory dict from a normalised
    query key to a result entry, loads it from one JSON file when it is
    constructed and writes it back on [close] when it has been modified.

    Python values are embedded as the type [pyval]; a method is a
    function on the fields of the instance and on the world (file
    system, log, trace of system calls) which returns a value or raises.
    The parts of the Python runtime the class calls but does not define
    ([json], [datetime]) are the fields of the class [Runtime]. *)

From Stdlib Require Import ZArith List String Ascii Bool Lia.
From Stdlib Require Import DecimalString DecimalPos DecimalZ.
Import ListNotations.

Set Warnings "-register-all".

Open Scope string_scope.
Open Scope Z_scope.

(** ** Python values *)

(** The values the cache can hold are the ones [json.load] produces,
    and the tuple, which [json.dump] accepts and writes as an array.  A
    dict keeps its keys in insertion order, as Python's does, and its
    keys are [str].  Numbers are integers: no path of the class tells a
    float from an int. *)
Inductive pyval : Type :=
| PyNone
| PyBool (b : bool)
| PyInt (z : Z)
| PyStr (s : string)
| PyList (l : list pyval)
| PyDict (d : list (string * pyval))
| PyTuple (l : list pyval).

Inductive exn : Type :=
| AttributeError
| TypeError
| ValueError
| KeyError
| JSONDecodeError
| UnicodeDecodeError
| OSError
| OverflowError.

Inductive outcome (A : Type) : Type :=
| Ret (a : A)
| Raise (e : exn).
Arguments Ret {A} a.
Arguments Raise {A} e.

Definition bindO {A B} (c : outcome A) (k : A -> outcome B) : outcome B :=
  match c with
  | Ret a => k a
  | Raise e => Raise e
  end.

Notation "'let?' x ':=' c 'in' k" := (bindO c (fun x => k))
  (at level 10, x name, c at level 100, k at level 200).

(** Python's truth test, as in [if title], [if year], [if media_type]. *)
Definition truthy (v : pyval) : bool :=
  match v with
  | PyNone => false
  | PyBool b => b
  | PyInt z => negb (z =? 0)
  | PyStr s => negb (s =? "")%string
  | PyList l => match l with [] => false | _ :: _ => true end
  | PyDict d => match d with [] => false | _ :: _ => true end
  | PyTuple l => match l with [] => false | _ :: _ => true end
  end.

(** ** Strings *)

(** A [str] is a [string] of characters in the ASCII range; a character
    above it is carried unchanged by [lower] and is not white space. *)

Definition lower_char (c : ascii) : ascii :=
  let n := nat_of_ascii c in
  if ((65 <=? n) && (n <=? 90))%nat then ascii_of_nat (n + 32) else c.

(** [str.lower()] *)
Fixpoint lower (s : string) : string :=
  match s with
  | EmptyString => EmptyString
  | String c r => String (lower_char c) (lower r)
  end.

(** [str.isspace()] on one character: tab, line feed, vertical tab, form
    feed, carriage return, the four separators 0x1c to 0x1f, and space. *)
Definition is_space (c : ascii) : bool :=
  let n := nat_of_ascii c in
  (((9 <=? n) && (n <=? 13)) || ((28 <=? n) && (n <=? 32)))%nat.

Fixpoint blank (s : string) : bool :=
  match s with
  | EmptyString => true
  | String c r => is_space c && blank r
  end.

Fixpoint lstrip (s : string) : string :=
  match s with
  | EmptyString => EmptyString
  | String c r => if is_space c then lstrip r else s
  end.

Fixpoint rstrip (s : string) : string :=
  match s with
  | EmptyString => EmptyString
  | String c r =>
      match rstrip r with
      | EmptyString => if is_space c then EmptyString else String c EmptyString
      | r' => String c r'
      end
  end.

(** [str.strip()] *)
Definition strip (s : string) : string := lstrip (rstrip s).

(** [needle in haystack] on two [str]: the substring test. *)
Fixpoint str_contains (needle hay : string) : bool :=
  String.prefix needle hay ||
  match hay with
  | EmptyString => false
  | String _ r => str_contains needle r
  end.

(** [str(n)] on an [int] *)
Definition str_of_int (z : Z) : string := NilZero.string_of_int (Z.to_int z).

Definition squote : ascii := ascii_of_nat 39.
Definition dquote : ascii := ascii_of_nat 34.
Definition backslash : ascii := ascii_of_nat 92.

Fixpoint has_char (c : ascii) (s : string) : bool :=
  match s with
  | EmptyString => false
  | String c' r => Ascii.eqb c c' || has_char c r
  end.

Definition hex_digit (n : nat) : ascii :=
  if (n <? 10)%nat then ascii_of_nat (48 + n) else ascii_of_nat (87 + n).

(** One character of [repr(s)] inside the quotes [q]. *)
Definition repr_char (q c : ascii) : string :=
  let n := nat_of_ascii c in
  if Ascii.eqb c q || Ascii.eqb c backslash then String backslash (String c EmptyString)
  else if (n =? 9)%nat then String backslash "t"
  else if (n =? 10)%nat then String backslash "n"
  else if (n =? 13)%nat then String backslash "r"
  else if ((n <? 32) || (n =? 127))%nat then
    String backslash (String "x" (String (hex_digit (n / 16)) (String (hex_digit (n mod 16)) EmptyString)))
  else String c EmptyString.

Fixpoint repr_chars (q : ascii) (s : string) : string :=
  match s with
  | EmptyString => EmptyString
  | String c r => repr_char q c ++ repr_chars q r
  end.

(** [repr(s)] on a [str]: single quotes, unless the text has a single
    quote and no double quote. *)
Definition repr_str (s : string) : string :=
  let q := if has_char squote s && negb (has_char dquote s) then dquote else squote in
  String q (repr_chars q s ++ String q EmptyString).

(** [repr(v)] *)
Fixpoint py_repr (v : pyval) : string :=
  match v with
  | PyNone => "None"
  | PyBool true => "True"
  | PyBool false => "False"
  | PyInt z => str_of_int z
  | PyStr s => repr_str s
  | PyList l => "[" ++ String.concat ", " (map py_repr l) ++ "]"
  | PyDict d =>
      "{" ++ String.concat ", "
               (map (fun kv => repr_str (fst kv) ++ ": " ++ py_repr (snd kv)) d) ++ "}"
  | PyTuple [x] => "(" ++ py_repr x ++ ",)"
  | PyTuple l => "(" ++ String.concat ", " (map py_repr l) ++ ")"
  end.

(** [str(v)] *)
Definition py_str (v : pyval) : string :=
  match v with
  | PyStr s => s
  | _ => py_repr v
  end.

(** [v.lower()]: only a [str] has the method. *)
Definition py_lower (v : pyval) : outcome string :=
  match v with
  | PyStr s => Ret (lower s)
  | _ => Raise AttributeError
  end.

(** ** Key normalisation *)

(** [TMDbCache._make_key]
<<
    normalized_title = title.lower().strip() if title else ''
    year_str = str(year) if year else '0'
    media_type_str = media_type.lower() if media_type else 'unknown'
    return f"{media_type_str}|{normalized_title}|{year_str}"
>> *)
Definition _make_key (media_type title year : pyval) : outcome string :=
  let? normalized_title :=
    (if truthy title then let? l := py_lower title in Ret (strip l) else Ret "") in
  let year_str := if truthy year then py_str year else "0" in
  let? media_type_str :=
    (if truthy media_type then py_lower media_type else Ret "unknown") in
  Ret (media_type_str ++ "|" ++ normalized_title ++ "|" ++ year_str).

(** The arguments the callers pass: a [str] or [None], and an [int] or
    [None] for the year. *)
Definition opt_str (o : option string) : pyval :=
  match o with
  | Some s => PyStr s
  | None => PyNone
  end.

Definition opt_int (o : option Z) : pyval :=
  match o with
  | Some z => PyInt z
  | None => PyNone
  end.

(** The three fields of a key in the words of the specification: the
    lowercased media type, ["unknown"] when absent; the lowercased and
    trimmed title, empty when absent; the stringified year, ["0"] when
    absent.  A media type that is the empty string is absent. *)
Definition media_field (m : option string) : string :=
  match m with
  | None => "unknown"
  | Some s => if (s =? "")%string then "unknown" else lower s
  end.

Definition title_field (t : option string) : string :=
  match t with
  | None => ""
  | Some s => strip (lower s)
  end.

Definition year_field (y : option Z) : string :=
  match y with
  | None => "0"
  | Some n => str_of_int n
  end.

Definition key_of_fields (m t : option string) (y : option Z) : string :=
  media_field m ++ "|" ++ title_field t ++ "|" ++ year_field y.

(** ** Dicts *)

(** A dict with [str] keys, in insertion order.  [d[k] = v] replaces the
    value in place when the key is present and appends otherwise;
    [del d[k]] removes the key. *)
Fixpoint dict_lookup (k : string) (d : list (string * pyval)) : option pyval :=
  match d with
  | [] => None
  | (k', v) :: r => if (k =? k')%string then Some v else dict_lookup k r
  end.

Fixpoint dict_set (k : string) (v : pyval) (d : list (string * pyval))
  : list (string * pyval) :=
  match d with
  | [] => [(k, v)]
  | (k', v') :: r =>
      if (k =? k')%string then (k', v) :: r else (k', v') :: dict_set k v r
  end.

Fixpoint dict_del (k : string) (d : list (string * pyval)) : list (string * pyval) :=
  match d with
  | [] => []
  | (k', v') :: r =>
      if (k =? k')%string then dict_del k r else (k', v') :: dict_del k r
  end.

Definition is_some {A} (o : option A) : bool :=
  match o with
  | Some _ => true
  | None => false
  end.

(** [x == key] for a [str] key *)
Definition eq_str (key : string) (x : pyval) : bool :=
  match x with
  | PyStr s => (s =? key)%string
  | _ => false
  end.

(** [len(v)] *)
Definition py_len (v : pyval) : outcome nat :=
  match v with
  | PyDict d => Ret (List.length d)
  | PyList l => Ret (List.length l)
  | PyTuple l => Ret (List.length l)
  | PyStr s => Ret (String.length s)
  | _ => Raise TypeError
  end.

(** [key in v] for a [str] key: a key of a dict, an element of a list or
    of a tuple, a substring of a [str]; any other value is not iterable. *)
Definition py_contains (key : string) (v : pyval) : outcome bool :=
  match v with
  | PyDict d => Ret (is_some (dict_lookup key d))
  | PyList l => Ret (existsb (eq_str key) l)
  | PyTuple l => Ret (existsb (eq_str key) l)
  | PyStr s => Ret (str_contains key s)
  | _ => Raise TypeError
  end.

(** [v[key]] for a [str] key *)
Definition py_getitem (v : pyval) (key : string) : outcome pyval :=
  match v with
  | PyDict d =>
      match dict_lookup key d with
      | Some x => Ret x
      | None => Raise KeyError
      end
  | _ => Raise TypeError
  end.

(** [v[key] = x] for a [str] key; the value is the container afterwards. *)
Definition py_setitem (v : pyval) (key : string) (x : pyval) : outcome pyval :=
  match v with
  | PyDict d => Ret (PyDict (dict_set key x d))
  | _ => Raise TypeError
  end.

(** [del v[key]] for a [str] key *)
Definition py_delitem (v : pyval) (key : string) : outcome pyval :=
  match v with
  | PyDict d =>
      match dict_lookup key d with
      | Some _ => Ret (PyDict (dict_del key d))
      | None => Raise KeyError
      end
  | _ => Raise TypeError
  end.

(** [v.get(key, default)]: only a dict has the method. *)
Definition py_get (v : pyval) (key : string) (default : pyval) : outcome pyval :=
  match v with
  | PyDict d =>
      match dict_lookup key d with
      | Some x => Ret x
      | None => Ret default
      end
  | _ => Raise AttributeError
  end.

(** [isinstance(e, cls)] on the exception classes: [JSONDecodeError] and
    [UnicodeDecodeError] derive from [ValueError]; [IOError] is
    [OSError]. *)
Definition exn_eqb (a b : exn) : bool :=
  match a, b with
  | AttributeError, AttributeError | TypeError, TypeError
  | ValueError, ValueError | KeyError, KeyError
  | JSONDecodeError, JSONDecodeError | UnicodeDecodeError, UnicodeDecodeError
  | OSError, OSError | OverflowError, OverflowError => true
  | _, _ => false
  end.

Definition isinstance (e cls : exn) : bool :=
  exn_eqb e cls ||
  match e, cls with
  | JSONDecodeError, ValueError | UnicodeDecodeError, ValueError => true
  | _, _ => false
  end.

Definition caught (e : exn) (classes : list exn) : bool :=
  existsb (isinstance e) classes.

(** [try: c except classes: h] without state *)
Definition tryO {A} (c : outcome A) (classes : list exn) (h : exn -> outcome A)
  : outcome A :=
  match c with
  | Ret a => Ret a
  | Raise e => if caught e classes then h e else Raise e
  end.

(** ** Time *)

(** A naive [datetime] is its number of microseconds since
    0001-01-01T00:00:00; [datetime.max] is the last microsecond of the
    year 9999. *)
Definition US_PER_DAY : Z := 86400000000.
Definition MAX_US : Z := 3652059 * US_PER_DAY - 1.

Definition TTL_DAYS : Z := 30.

(** [timedelta(days=n)] in microseconds *)
Definition timedelta_days (n : Z) : Z := n * US_PER_DAY.

(** A [datetime] with its wall-clock reading, naive or carrying a UTC
    offset. *)
Inductive datetime : Type :=
| Naive (t : Z)
| Aware (t : Z).

Definition wall (d : datetime) : Z :=
  match d with
  | Naive t => t
  | Aware t => t
  end.

(** [d + delta]: out of range past [datetime.max]. *)
Definition datetime_add (d : datetime) (delta : Z) : outcome datetime :=
  if MAX_US <? wall d + delta then Raise OverflowError
  else Ret (match d with
            | Naive t => Naive (t + delta)
            | Aware t => Aware (t + delta)
            end).

(** [now > d] for the naive [now]: comparing with an aware [datetime] is
    a [TypeError]. *)
Definition now_gt (now : Z) (d : datetime) : outcome bool :=
  match d with
  | Naive t => Ret (t <? now)
  | Aware _ => Raise TypeError
  end.

(** ** The runtime *)

(** What the class calls and does not define.  [json_dumps data] is the
    text [json.dump(data, f, ensure_ascii=False, indent=2)] writes;
    [json_loads] is [json.load] on the content of a file opened as
    utf-8; [isoformat] and [fromisoformat] are the methods of
    [datetime], on microseconds. *)
Class Runtime : Type := {
  json_dumps : pyval -> string;
  json_loads : string -> outcome pyval;
  isoformat : Z -> string;
  fromisoformat : string -> option datetime
}.

(** ** The world *)

(** The two paths the class touches: the directory [CACHE_DIR],
    ["~/.torcp"] with the home of the user expanded, and the file
    [CACHE_FILE], ["tmdb_cache.json"], in it. *)
Inductive path : Type :=
| CacheDir
| CachePath.

(** [TMDbCache._get_cache_dir] *)
Definition _get_cache_dir : path := CacheDir.

(** [TMDbCache._get_cache_path] *)
Definition _get_cache_path : path := CachePath.

(** What happens when the cache file is opened for writing: it is
    written; or [open] raises and the file is as before; or the write
    raises after [open] has truncated the file, leaving [rest]. *)
Inductive write_mode : Type :=
| WriteOk
| OpenFails
| DumpFails (rest : string).

(** The file system as the class sees it: whether the directory exists,
    the content of the cache file when the path exists, and which system
    calls the environment refuses (each refusal is an [OSError]). *)
Record filesystem : Type := {
  dir_exists : bool;
  file : option string;
  read_fails : bool;
  mkdir_fails : bool;
  write_fault : write_mode;
  remove_fails : bool
}.

Inductive syscall : Type :=
| SysExists (p : path)
| SysMakedirs
| SysOpenRead
| SysOpenWrite
| SysRemove.

Inductive level : Type :=
| DEBUG
| INFO
| WARNING.

(** The records the class sends to its logger. *)
Inductive log_record : Type :=
| LogLoaded (n : nat)
| LogLoadFailed (e : exn)
| LogSaved (n : nat)
| LogSaveFailed (e : exn)
| LogExpired (key : string)
| LogCleared
| LogDeleteFailed (e : exn).

Definition level_of (r : log_record) : level :=
  match r with
  | LogLoaded _ | LogSaved _ | LogCleared => INFO
  | LogLoadFailed _ | LogSaveFailed _ | LogDeleteFailed _ => WARNING
  | LogExpired _ => DEBUG
  end.

(** The log and the trace of system calls grow at the end. *)
Record world : Type := {
  fs : filesystem;
  log : list log_record;
  trace : list syscall
}.

(** The fields of an instance. *)
Record self : Type := {
  disabled : bool;
  cache : pyval;
  _dirty : bool
}.

(** ** Methods as state transformers *)

Definition M (A : Type) : Type := self -> world -> outcome A * self * world.

Definition ret {A} (a : A) : M A := fun s w => (Ret a, s, w).

Definition raise {A} (e : exn) : M A := fun s w => (Raise e, s, w).

Definition bind {A B} (c : M A) (k : A -> M B) : M B :=
  fun s w =>
    match c s w with
    | (Ret a, s', w') => k a s' w'
    | (Raise e, s', w') => (Raise e, s', w')
    end.

Notation "x <- c ;; k" := (bind c (fun x => k))
  (at level 61, c at next level, right associativity).
Notation "c ;; k" := (bind c (fun _ => k))
  (at level 61, right associativity).

Definition lift {A} (o : outcome A) : M A := fun s w => (o, s, w).

(** [try: c except classes as e: h e] *)
Definition try_except {A} (c : M A) (classes : list exn) (h : exn -> M A) : M A :=
  fun s w =>
    match c s w with
    | (Ret a, s', w') => (Ret a, s', w')
    | (Raise e, s', w') => if caught e classes then h e s' w' else (Raise e, s', w')
    end.

Definition get_disabled : M bool := fun s w => (Ret (disabled s), s, w).
Definition get_cache : M pyval := fun s w => (Ret (cache s), s, w).
Definition get_dirty : M bool := fun s w => (Ret (_dirty s), s, w).

Definition set_disabled (b : bool) : M unit :=
  fun s w => (Ret tt, {| disabled := b; cache := cache s; _dirty := _dirty s |}, w).
Definition set_cache (v : pyval) : M unit :=
  fun s w => (Ret tt, {| disabled := disabled s; cache := v; _dirty := _dirty s |}, w).
Definition set_dirty (b : bool) : M unit :=
  fun s w => (Ret tt, {| disabled := disabled s; cache := cache s; _dirty := b |}, w).

Definition logger (r : log_record) : M unit :=
  fun s w => (Ret tt, s, {| fs := fs w; log := log w ++ [r]; trace := trace w |}).

Definition sys (c : syscall) : M unit :=
  fun s w => (Ret tt, s, {| fs := fs w; log := log w; trace := trace w ++ [c] |}).

Definition get_fs : M filesystem := fun s w => (Ret (fs w), s, w).
Definition set_fs (f : filesystem) : M unit :=
  fun s w => (Ret tt, s, {| fs := f; log := log w; trace := trace w |}).

Definition with_dir (f : filesystem) (b : bool) : filesystem :=
  {| dir_exists := b; file := file f; read_fails := read_fails f;
     mkdir_fails := mkdir_fails f; write_fault := write_fault f;
     remove_fails := remove_fails f |}.

Definition with_file (f : filesystem) (c : option string) : filesystem :=
  {| dir_exists := dir_exists f; file := c; read_fails := read_fails f;
     mkdir_fails := mkdir_fails f; write_fault := write_fault f;
     remove_fails := remove_fails f |}.

(** [os.path.exists(p)] *)
Definition os_path_exists (p : path) : M bool :=
  sys (SysExists p) ;;
  f <- get_fs ;;
  ret (match p with
       | CacheDir => dir_exists f
       | CachePath => is_some (file f)
       end).

(** [os.makedirs(cache_dir)] *)
Definition os_makedirs : M unit :=
  sys SysMakedirs ;;
  f <- get_fs ;;
  if mkdir_fails f then raise OSError else set_fs (with_dir f true).

(** [open(cache_path, 'r', encoding='utf-8')] and the read of the whole
    file. *)
Definition read_file : M string :=
  sys SysOpenRead ;;
  f <- get_fs ;;
  if read_fails f then raise OSError
  else match file f with
       | Some text => ret text
       | None => raise OSError
       end.

(** [open(cache_path, 'w', encoding='utf-8')] and the write of [text]. *)
Definition write_file (text : string) : M unit :=
  sys SysOpenWrite ;;
  f <- get_fs ;;
  match write_fault f with
  | WriteOk => set_fs (with_file f (Some text))
  | OpenFails => raise OSError
  | DumpFails rest => set_fs (with_file f (Some rest)) ;; raise OSError
  end.

(** [os.remove(cache_path)] *)
Definition os_remove : M unit :=
  sys SysRemove ;;
  f <- get_fs ;;
  if remove_fails f then raise OSError
  else match file f with
       | Some _ => set_fs (with_file f None)
       | None => raise OSError
       end.

Section TMDbCache.

Context {rt : Runtime}.

(** [TMDbCache._load]
<<
    if os.path.exists(cache_path):
        try:
            with open(cache_path, 'r', encoding='utf-8') as f:
                data = json.load(f)
                self.cache = data.get('entries', {})
                logger.info(f"Loaded {len(self.cache)} entries from TMDB cache")
        except (json.JSONDecodeError, IOError) as e:
            logger.warning(f"Failed to load TMDB cache: {e}")
            self.cache = {}
>> *)
Definition _load : M unit :=
  present <- os_path_exists _get_cache_path ;;
  if present then
    try_except
      (text <- read_file ;;
       data <- lift (json_loads text) ;;
       entries <- lift (py_get data "entries" (PyDict [])) ;;
       set_cache entries ;;
       c <- get_cache ;;
       n <- lift (py_len c) ;;
       logger (LogLoaded n))
      [JSONDecodeError; OSError]
      (fun e => logger (LogLoadFailed e) ;; set_cache (PyDict []))
  else ret tt.

(** [TMDbCache.__init__]
<<
    self.disabled = disabled
    self.cache = {}
    self._dirty = False
    if not disabled:
        self._load()
>> *)
Definition __init__ (disabled : bool) : M unit :=
  set_disabled disabled ;;
  set_cache (PyDict []) ;;
  set_dirty false ;;
  if negb disabled then _load else ret tt.

(** The object before [__init__] has run. *)
Definition blank_self : self :=
  {| disabled := false; cache := PyNone; _dirty := false |}.

(** [TMDbCache(disabled)]: the instance, unless [__init__] raises. *)
Definition new (disabled : bool) (w : world) : outcome self * world :=
  match __init__ disabled blank_self w with
  | (Ret _, s, w') => (Ret s, w')
  | (Raise e, _, w') => (Raise e, w')
  end.

(** The document [_save] writes. *)
Definition document (now : Z) (entries : pyval) : pyval :=
  PyDict [("version", PyStr "1.0");
          ("updated", PyStr (isoformat now));
          ("entries", entries)].

(** [TMDbCache._save]; [now] is what [datetime.now()] returns.
<<
    if self.disabled:
        return
    cache_dir = self._get_cache_dir()
    if not os.path.exists(cache_dir):
        os.makedirs(cache_dir)
    cache_path = self._get_cache_path()
    try:
        data = {'version': '1.0', 'updated': datetime.now().isoformat(),
                'entries': self.cache}
        with open(cache_path, 'w', encoding='utf-8') as f:
            json.dump(data, f, ensure_ascii=False, indent=2)
        logger.info(f"Saved {len(self.cache)} entries to TMDB cache")
    except IOError as e:
        logger.warning(f"Failed to save TMDB cache: {e}")
>> *)
Definition _save (now : Z) : M unit :=
  off <- get_disabled ;;
  if off then ret tt
  else
    present <- os_path_exists _get_cache_dir ;;
    (if negb present then os_makedirs else ret tt) ;;
    try_except
      (c <- get_cache ;;
       write_file (json_dumps (document now c)) ;;
       c' <- get_cache ;;
       n <- lift (py_len c') ;;
       logger (LogSaved n))
      [OSError]
      (fun e => logger (LogSaveFailed e)).

(** [datetime.fromisoformat(v)]: a [TypeError] on what is not a [str], a
    [ValueError] on a text that is not a date. *)
Definition py_fromisoformat (v : pyval) : outcome datetime :=
  match v with
  | PyStr s =>
      match fromisoformat s with
      | Some d => Ret d
      | None => Raise ValueError
      end
  | _ => Raise TypeError
  end.

(** [TMDbCache._is_expired]
<<
    if 'timestamp' not in entry:
        return True
    try:
        timestamp = datetime.fromisoformat(entry['timestamp'])
        expiry = timestamp + timedelta(days=self.TTL_DAYS)
        return datetime.now() > expiry
    except (ValueError, TypeError):
        return True
>> *)
Definition _is_expired (now : Z) (entry : pyval) : outcome bool :=
  let? stamped := py_contains "timestamp" entry in
  if negb stamped then Ret true
  else
    tryO
      (let? ts := py_getitem entry "timestamp" in
       let? timestamp := py_fromisoformat ts in
       let? expiry := datetime_add timestamp (timedelta_days TTL_DAYS) in
       now_gt now expiry)
      [ValueError; TypeError]
      (fun _ => Ret true).

(** [TMDbCache.get]; the value is [None] when the key is not found or
    its entry has expired.
<<
    if self.disabled:
        return None
    if key not in self.cache:
        return None
    entry = self.cache[key]
    if self._is_expired(entry):
        logger.debug(f"Cache expired: {key}")
        del self.cache[key]
        self._dirty = True
        return None
    return entry
>> *)
Definition get (now : Z) (key : string) : M pyval :=
  off <- get_disabled ;;
  if off then ret PyNone
  else
    c <- get_cache ;;
    found <- lift (py_contains key c) ;;
    if negb found then ret PyNone
    else
      entry <- lift (py_getitem c key) ;;
      expired <- lift (_is_expired now entry) ;;
      if expired then
        logger (LogExpired key) ;;
        c' <- get_cache ;;
        c'' <- lift (py_delitem c' key) ;;
        set_cache c'' ;;
        set_dirty true ;;
        ret PyNone
      else ret entry.

(** [TMDbCache.get_by_search] *)
Definition get_by_search (now : Z) (media_type title year : pyval) : M pyval :=
  key <- lift (_make_key media_type title year) ;;
  get now key.

(** [TMDbCache.set].  The assignment to [entry['timestamp']] is made on
    the caller's dict, and that same dict is stored.  The instance is
    modelled by the values it holds: the stored value is the entry with
    its timestamp assigned.  What the model leaves out is the sharing: a
    dict held under two keys, or one the caller still holds (the result
    of an earlier [get], say), is re-stamped under every name by a
    [set] of it, and here it is as many values as names.  The
    statements of this file are about one key at a time and about what
    a call returns and stores; none is about a dict reached by two
    names.
<<
    if self.disabled:
        return
    entry['timestamp'] = datetime.now().isoformat()
    self.cache[key] = entry
    self._dirty = True
>> *)
Definition set (now : Z) (key : string) (entry : pyval) : M unit :=
  off <- get_disabled ;;
  if off then ret tt
  else
    entry' <- lift (py_setitem entry "timestamp" (PyStr (isoformat now))) ;;
    c <- get_cache ;;
    c' <- lift (py_setitem c key entry') ;;
    set_cache c' ;;
    set_dirty true.

(** [TMDbCache.set_by_search] *)
Definition set_by_search (now : Z) (media_type title year entry : pyval) : M unit :=
  key <- lift (_make_key media_type title year) ;;
  set now key entry.

(** [TMDbCache.clear]
<<
    self.cache = {}
    self._dirty = True
    cache_path = self._get_cache_path()
    if os.path.exists(cache_path):
        try:
            os.remove(cache_path)
            logger.info("TMDB cache cleared")
        except IOError as e:
            logger.warning(f"Failed to delete cache file: {e}")
>> *)
Definition clear : M unit :=
  set_cache (PyDict []) ;;
  set_dirty true ;;
  present <- os_path_exists _get_cache_path ;;
  if present then
    try_except
      (os_remove ;; logger LogCleared)
      [OSError]
      (fun e => logger (LogDeleteFailed e))
  else ret tt.

(** [TMDbCache.close]
<<
    if self._dirty:
        self._save()
        self._dirty = False
>> *)
Definition close (now : Z) : M unit :=
  d <- get_dirty ;;
  if d then _save now ;; set_dirty false else ret tt.

(** ** Runs *)

(** One call of a public method by the caller. *)
Inductive call : Type :=
| Get (key : string)
| GetBySearch (media_type title year : pyval)
| Set_ (key : string) (entry : pyval)
| SetBySearch (media_type title year entry : pyval)
| Clear
| Close.

(** The call at the clock reading [now]; a method without [return] has
    the value [None]. *)
Definition run_call (now : Z) (c : call) : M pyval :=
  match c with
  | Get key => get now key
  | GetBySearch media_type title year => get_by_search now media_type title year
  | Set_ key entry => set now key entry ;; ret PyNone
  | SetBySearch media_type title year entry =>
      set_by_search now media_type title year entry ;; ret PyNone
  | Clear => clear ;; ret PyNone
  | Close => close now ;; ret PyNone
  end.

(** The states of an instance made by [TMDbCache(disabled)]: the one the
    constructor returns, and the one any call leaves, whether it returns
    or raises, in whatever world it runs. *)
Inductive reachable (d : bool) : self -> Prop :=
| reach_new (w w' : world) (s : self) :
    new d w = (Ret s, w') -> reachable d s
| reach_call (s s' : self) (now : Z) (c : call) (w w' : world) (r : outcome pyval) :
    reachable d s -> run_call now c s w = (r, s', w') -> reachable d s'.

(** A disabled instance holds nothing. *)
Definition cache_inv (s : self) : Prop :=
  disabled s = true -> cache s = PyDict [].

(** ** Expiry in the words of the specification *)

(** The entry as [set] stores it at the clock reading [now]. *)
Definition stamp (now : Z) (e : list (string * pyval)) : list (string * pyval) :=
  dict_set "timestamp" (PyStr (isoformat now)) e.

(** An entry is stale at [now] when its [timestamp] is missing, is not
    the text of an ISO-8601 date, or is more than the TTL before [now].
    A date that carries a UTC offset has no age on the naive clock of
    the class and is left out. *)
Definition stale (now : Z) (e : list (string * pyval)) : bool :=
  match dict_lookup "timestamp" e with
  | None => true
  | Some (PyStr ts) =>
      match fromisoformat ts with
      | None => true
      | Some (Naive t) => t + timedelta_days TTL_DAYS <? now
      | Some (Aware _) => false
      end
  | Some _ => true
  end.

(** An entry is fresh at [now] when its [timestamp] is the text of a
    date that is at most the TTL before [now]. *)
Definition fresh (now : Z) (e : pyval) : bool :=
  match e with
  | PyDict d =>
      match dict_lookup "timestamp" d with
      | Some (PyStr ts) =>
          match fromisoformat ts with
          | Some (Naive t) => now <=? t + timedelta_days TTL_DAYS
          | _ => false
          end
      | _ => false
      end
  | _ => false
  end.

(** The number of times the cache file was opened for writing. *)
Fixpoint writes (t : list syscall) : nat :=
  match t with
  | [] => O
  | SysOpenWrite :: r => S (writes r)
  | _ :: r => writes r
  end.

(** The world with one more record in the log, with more system calls in
    the trace. *)
Definition logged (w : world) (r : log_record) : world :=
  {| fs := fs w; log := log w ++ [r]; trace := trace w |}.

Definition traced (w : world) (t : list syscall) : world :=
  {| fs := fs w; log := log w; trace := trace w ++ t |}.

End TMDbCache.

(** ** A runtime to compute with *)

(** An instance of [Runtime] on which the methods run on concrete
    files: the JSON text [json.dump] writes with [indent=2] and
    [ensure_ascii=False], a tuple as an array, a parser of JSON, and
    the ISO format of [datetime.isoformat] with a parser of it.  The
    parser of JSON reads
    the texts whose numbers are integers and whose [\u] escapes are in
    the ASCII range, and rejects the others, where Python builds a float
    or a wider character; the parser of dates reads what [isoformat]
    writes, with or without the time and a UTC offset. *)
Module Py.

Definition nl : string := String (ascii_of_nat 10) EmptyString.

Fixpoint spaces (n : nat) : string :=
  match n with
  | O => EmptyString
  | S k => String " " (spaces k)
  end.

Definition json_char (c : ascii) : string :=
  let n := nat_of_ascii c in
  if Ascii.eqb c dquote || Ascii.eqb c backslash then String backslash (String c EmptyString)
  else if (n =? 10)%nat then String backslash "n"
  else if (n =? 13)%nat then String backslash "r"
  else if (n =? 9)%nat then String backslash "t"
  else if (n =? 8)%nat then String backslash "b"
  else if (n =? 12)%nat then String backslash "f"
  else if (n <? 32)%nat then
    String backslash ("u00" ++ String (hex_digit (n / 16)) (String (hex_digit (n mod 16)) EmptyString))
  else String c EmptyString.

Fixpoint json_chars (s : string) : string :=
  match s with
  | EmptyString => EmptyString
  | String c r => json_char c ++ json_chars r
  end.

Definition json_str (s : string) : string :=
  String dquote (json_chars s ++ String dquote EmptyString).

Fixpoint dumps_at (depth : nat) (v : pyval) : string :=
  let sep := "," ++ nl ++ spaces (2 * S depth) in
  let opening := nl ++ spaces (2 * S depth) in
  let closing := nl ++ spaces (2 * depth) in
  match v with
  | PyNone => "null"
  | PyBool true => "true"
  | PyBool false => "false"
  | PyInt z => str_of_int z
  | PyStr s => json_str s
  | PyList [] => "[]"
  | PyList l =>
      "[" ++ opening ++ String.concat sep (map (dumps_at (S depth)) l) ++ closing ++ "]"
  | PyDict [] => "{}"
  | PyDict d =>
      "{" ++ opening
          ++ String.concat sep
               (map (fun kv => json_str (fst kv) ++ ": " ++ dumps_at (S depth) (snd kv)) d)
          ++ closing ++ "}"
  | PyTuple [] => "[]"
  | PyTuple l =>
      "[" ++ opening ++ String.concat sep (map (dumps_at (S depth)) l) ++ closing ++ "]"
  end.

Definition dumps (v : pyval) : string := dumps_at 0 v.

(** *** Parsing *)

Definition is_json_ws (c : ascii) : bool :=
  let n := nat_of_ascii c in
  ((n =? 32) || (n =? 9) || (n =? 10) || (n =? 13))%nat.

Fixpoint skip_ws (s : string) : string :=
  match s with
  | String c r => if is_json_ws c then skip_ws r else s
  | EmptyString => EmptyString
  end.

Definition digit_of (c : ascii) : option Z :=
  let n := nat_of_ascii c in
  if ((48 <=? n) && (n <=? 57))%nat then Some (Z.of_nat (n - 48)) else None.

Definition hex_of (c : ascii) : option nat :=
  let n := nat_of_ascii c in
  if ((48 <=? n) && (n <=? 57))%nat then Some (n - 48)%nat
  else if ((97 <=? n) && (n <=? 102))%nat then Some (n - 87)%nat
  else if ((65 <=? n) && (n <=? 70))%nat then Some (n - 55)%nat
  else None.

Fixpoint read_digits (acc : Z) (s : string) : Z * string :=
  match s with
  | String c r =>
      match digit_of c with
      | Some d => read_digits (10 * acc + d) r
      | None => (acc, s)
      end
  | EmptyString => (acc, s)
  end.

(** A number without fraction or exponent; a leading zero stands alone. *)
Definition read_nat (s : string) : option (Z * string) :=
  match s with
  | String c r =>
      match digit_of c with
      | Some 0 => Some (0, r)
      | Some d => Some (read_digits d r)
      | None => None
      end
  | EmptyString => None
  end.

Definition float_follows (s : string) : bool :=
  match s with
  | String c _ => Ascii.eqb c "." || Ascii.eqb c "e" || Ascii.eqb c "E"
  | EmptyString => false
  end.

Definition read_int (s : string) : option (Z * string) :=
  let signed :=
    match s with
    | String "-" r =>
        match read_nat r with
        | Some (n, r') => Some (- n, r')
        | None => None
        end
    | _ => read_nat s
    end in
  match signed with
  | Some (n, r) => if float_follows r then None else Some (n, r)
  | None => None
  end.

(** The text of a string after its opening quote. *)
Fixpoint read_string (s : string) : option (string * string) :=
  match s with
  | EmptyString => None
  | String c r =>
      if Ascii.eqb c dquote then Some (EmptyString, r)
      else if Ascii.eqb c backslash then
        match r with
        | String e r' =>
            let plain (x : ascii) :=
              match read_string r' with
              | Some (t, r'') => Some (String x t, r'')
              | None => None
              end in
            if Ascii.eqb e dquote then plain dquote
            else if Ascii.eqb e backslash then plain backslash
            else if Ascii.eqb e "/" then plain "/"%char
            else if Ascii.eqb e "n" then plain (ascii_of_nat 10)
            else if Ascii.eqb e "r" then plain (ascii_of_nat 13)
            else if Ascii.eqb e "t" then plain (ascii_of_nat 9)
            else if Ascii.eqb e "b" then plain (ascii_of_nat 8)
            else if Ascii.eqb e "f" then plain (ascii_of_nat 12)
            else if Ascii.eqb e "u" then
              match r' with
              | String "0" (String "0" (String h (String l r''))) =>
                  match hex_of h, hex_of l, read_string r'' with
                  | Some a, Some b, Some (t, r3) =>
                      if (a <? 8)%nat then Some (String (ascii_of_nat (16 * a + b)) t, r3)
                      else None
                  | _, _, _ => None
                  end
              | _ => None
              end
            else None
        | EmptyString => None
        end
      else if (nat_of_ascii c <? 32)%nat then None
      else
        match read_string r with
        | Some (t, r') => Some (String c t, r')
        | None => None
        end
  end.

Definition drop_prefix (p s : string) : option string :=
  if String.prefix p s
  then Some (String.substring (String.length p) (String.length s - String.length p) s)
  else None.

Fixpoint parse_value (fuel : nat) (s : string) {struct fuel} : option (pyval * string) :=
  match fuel with
  | O => None
  | S n =>
      match skip_ws s with
      | String "{" r =>
          match skip_ws r with
          | String "}" r' => Some (PyDict [], r')
          | r' => parse_members n r' []
          end
      | String "[" r =>
          match skip_ws r with
          | String "]" r' => Some (PyList [], r')
          | r' => parse_elems n r' []
          end
      | String c r as s' =>
          if Ascii.eqb c dquote then
            match read_string r with
            | Some (t, r') => Some (PyStr t, r')
            | None => None
            end
          else
            match drop_prefix "null" s', drop_prefix "true" s', drop_prefix "false" s' with
            | Some r', _, _ => Some (PyNone, r')
            | _, Some r', _ => Some (PyBool true, r')
            | _, _, Some r' => Some (PyBool false, r')
            | _, _, _ =>
                match read_int s' with
                | Some (z, r') => Some (PyInt z, r')
                | None => None
                end
            end
      | EmptyString => None
      end
  end
with parse_elems (fuel : nat) (s : string) (acc : list pyval) {struct fuel}
  : option (pyval * string) :=
  match fuel with
  | O => None
  | S n =>
      match parse_value n s with
      | Some (v, r) =>
          match skip_ws r with
          | String "," r' => parse_elems n r' (acc ++ [v])
          | String "]" r' => Some (PyList (acc ++ [v]), r')
          | _ => None
          end
      | None => None
      end
  end
with parse_members (fuel : nat) (s : string) (acc : list (string * pyval)) {struct fuel}
  : option (pyval * string) :=
  match fuel with
  | O => None
  | S n =>
      match skip_ws s with
      | String c r =>
          if Ascii.eqb c dquote then
            match read_string r with
            | Some (k, r1) =>
                match skip_ws r1 with
                | String ":" r2 =>
                    match parse_value n r2 with
                    | Some (v, r3) =>
                        match skip_ws r3 with
                        | String "," r4 => parse_members n r4 (dict_set k v acc)
                        | String "}" r4 => Some (PyDict (dict_set k v acc), r4)
                        | _ => None
                        end
                    | None => None
                    end
                | _ => None
                end
            | None => None
            end
          else None
      | EmptyString => None
      end
  end.

(** Well-formed UTF-8: the file is opened with [encoding='utf-8']. *)
Fixpoint utf8_ok (pending : nat) (lo hi : nat) (s : string) : bool :=
  match s with
  | EmptyString => (pending =? 0)%nat
  | String c r =>
      let n := nat_of_ascii c in
      match pending with
      | S p => ((lo <=? n) && (n <=? hi))%nat && utf8_ok p 128 191 r
      | O =>
          if (n <? 128)%nat then utf8_ok 0 128 191 r
          else if ((194 <=? n) && (n <=? 223))%nat then utf8_ok 1 128 191 r
          else if (n =? 224)%nat then utf8_ok 2 160 191 r
          else if (n =? 237)%nat then utf8_ok 2 128 159 r
          else if ((225 <=? n) && (n <=? 239))%nat then utf8_ok 2 128 191 r
          else if (n =? 240)%nat then utf8_ok 3 144 191 r
          else if (n =? 244)%nat then utf8_ok 3 128 143 r
          else if ((241 <=? n) && (n <=? 243))%nat then utf8_ok 3 128 191 r
          else false
      end
  end.

Definition loads (text : string) : outcome pyval :=
  if negb (utf8_ok 0 128 191 text) then Raise UnicodeDecodeError
  else
    match parse_value (2 * String.length text + 2) text with
    | Some (v, r) =>
        match skip_ws r with
        | EmptyString => Ret v
        | _ => Raise JSONDecodeError
        end
    | None => Raise JSONDecodeError
    end.

(** *** Dates *)

Definition is_leap (y : Z) : bool :=
  ((y mod 4 =? 0) && negb (y mod 100 =? 0)) || (y mod 400 =? 0).

Definition days_in_month (y m : Z) : Z :=
  if m =? 2 then (if is_leap y then 29 else 28)
  else if (m =? 4) || (m =? 6) || (m =? 9) || (m =? 11) then 30
  else 31.

(** Days from 0001-01-01 to the date. *)
Definition days_from_civil (y m d : Z) : Z :=
  let y' := if m <=? 2 then y - 1 else y in
  let era := y' / 400 in
  let yoe := y' - era * 400 in
  let mp := if 2 <? m then m - 3 else m + 9 in
  let doy := (153 * mp + 2) / 5 + d - 1 in
  let doe := yoe * 365 + yoe / 4 - yoe / 100 + doy in
  era * 146097 + doe - 306.

Definition civil_from_days (n : Z) : Z * Z * Z :=
  let z := n + 306 in
  let era := z / 146097 in
  let doe := z - era * 146097 in
  let yoe := (doe - doe / 1460 + doe / 36524 - doe / 146096) / 365 in
  let doy := doe - (365 * yoe + yoe / 4 - yoe / 100) in
  let mp := (5 * doy + 2) / 153 in
  let d := doy - (153 * mp + 2) / 5 + 1 in
  let m := if mp <? 10 then mp + 3 else mp - 9 in
  let y := yoe + era * 400 + (if m <=? 2 then 1 else 0) in
  (y, m, d).

Fixpoint zeros (n : nat) : string :=
  match n with
  | O => EmptyString
  | S k => String "0" (zeros k)
  end.

Definition pad (width : nat) (n : Z) : string :=
  let s := str_of_int n in
  zeros (width - String.length s) ++ s.

Definition format_iso (t : Z) : string :=
  let '(y, m, d) := civil_from_days (t / US_PER_DAY) in
  let r := t mod US_PER_DAY in
  let us := r mod 1000000 in
  let secs := r / 1000000 in
  pad 4 y ++ "-" ++ pad 2 m ++ "-" ++ pad 2 d ++ "T"
    ++ pad 2 (secs / 3600) ++ ":" ++ pad 2 (secs / 60 mod 60) ++ ":" ++ pad 2 (secs mod 60)
    ++ (if us =? 0 then "" else "." ++ pad 6 us).

(** Exactly [n] digits. *)
Fixpoint read_fixed (n : nat) (acc : Z) (s : string) : option (Z * string) :=
  match n with
  | O => Some (acc, s)
  | S k =>
      match s with
      | String c r =>
          match digit_of c with
          | Some d => read_fixed k (10 * acc + d) r
          | None => None
          end
      | EmptyString => None
      end
  end.

Definition expect (c : ascii) (s : string) : option string :=
  match s with
  | String c' r => if Ascii.eqb c c' then Some r else None
  | EmptyString => None
  end.

Definition bindP {A B} (o : option A) (k : A -> option B) : option B :=
  match o with
  | Some a => k a
  | None => None
  end.

Notation "'do' x '<-' c 'in' k" := (bindP c (fun x => k))
  (at level 10, x pattern, c at level 100, k at level 200).

Definition read_date (s : string) : option (Z * string) :=
  do (y, s) <- read_fixed 4 0 s in
  do s <- expect "-" s in
  do (m, s) <- read_fixed 2 0 s in
  do s <- expect "-" s in
  do (d, s) <- read_fixed 2 0 s in
  if (1 <=? y) && (1 <=? m) && (m <=? 12) && (1 <=? d) && (d <=? days_in_month y m)
  then Some (days_from_civil y m d, s)
  else None.

Definition read_clock (s : string) : option (Z * string) :=
  do (h, s) <- read_fixed 2 0 s in
  do s <- expect ":" s in
  do (mi, s) <- read_fixed 2 0 s in
  do s <- expect ":" s in
  do (sec, s) <- read_fixed 2 0 s in
  if (h <? 24) && (mi <? 60) && (sec <? 60) then
    let whole := ((h * 60 + mi) * 60 + sec) * 1000000 in
    match s with
    | String "." r =>
        do (us, s') <- read_fixed 6 0 r in
        Some (whole + us, s')
    | _ => Some (whole, s)
    end
  else None.

Definition read_offset (s : string) : option string :=
  do (h, s) <- read_fixed 2 0 s in
  do s <- expect ":" s in
  do (mi, s) <- read_fixed 2 0 s in
  if (h <? 24) && (mi <? 60) then Some s else None.

(** The texts [format_iso] writes, a date alone, and either of them with a
    UTC offset [+HH:MM] or [-HH:MM] after the time. *)
Definition parse_iso (s : string) : option datetime :=
  do (days, s) <- read_date s in
  match s with
  | EmptyString => Some (Naive (days * US_PER_DAY))
  | String sep r =>
      if Ascii.eqb sep "T" || Ascii.eqb sep " " then
        do (us, s') <- read_clock r in
        let t := days * US_PER_DAY + us in
        match s' with
        | EmptyString => Some (Naive t)
        | String sg r' =>
            if Ascii.eqb sg "+" || Ascii.eqb sg "-" then
              match read_offset r' with
              | Some EmptyString => Some (Aware t)
              | _ => None
              end
            else None
        end
      else None
  end.

Definition runtime : Runtime :=
  {| json_dumps := dumps;
     json_loads := loads;
     isoformat := format_iso;
     fromisoformat := parse_iso |}.

End Py.

(** ** Worlds to compute with *)

(** The instance a constructor leaves when nothing was loaded. *)
Definition empty_self : self :=
  {| disabled := false; cache := PyDict []; _dirty := false |}.

(** A file system that refuses nothing, and the world of a process that
    has not logged nor called the system yet. *)
Definition plain_fs (dir : bool) (content : option string) : filesystem :=
  {| dir_exists := dir; file := content; read_fails := false;
     mkdir_fails := false; write_fault := WriteOk; remove_fails := false |}.

Definition boot (f : filesystem) : world :=
  {| fs := f; log := []; trace := [] |}.

(** A home directory in which [~/.torcp] cannot be created. *)
Definition locked_home : filesystem :=
  {| dir_exists := false; file := None; read_fails := false;
     mkdir_fails := true; write_fault := WriteOk; remove_fails := false |}.

(** 2024-01-01T00:00:00, and a number of days in microseconds. *)
Definition new_year_2024 : Z := 738885 * US_PER_DAY.
Definition days (n : Z) : Z := n * US_PER_DAY.

(** ** Keys without the separator *)

(** The text has no ["|"]. *)
Definition no_bar (s : string) : bool := negb (has_char "|" s).

Definition no_bar_opt (o : option string) : bool :=
  match o with
  | Some s => no_bar s
  | None => true
  end.

(** Two years that give the same field of a key: equal, or one absent
    and the other zero. *)
Definition same_year (y y' : option Z) : Prop :=
  match y, y' with
  | Some a, Some b => a = b
  | None, None => True
  | Some a, None => a = 0
  | None, Some b => b = 0
  end.

(** * TorcpProgress: the progress bar of torcp

    Shallow embedding of [torcp/progress.py].  The class drives a
    [rich.progress.Progress] and, while it is started, replaces the
    handlers of the root logger by one [RichHandler].  The objects of
    [rich] and [logging] are known by their identity; what the class
    asks of [rich] is recorded call by call, and the handlers of the
    root logger are the list [logging.getLogger().handlers]. *)
Module TorcpProgress.

(** The identity of an object. *)
Definition obj : Type := nat.

(** The calls the class makes to [rich], with the object each one
    creates or acts on. *)
Inductive rich_call : Type :=
| NewConsole (c : obj)
| NewProgress (p c : obj)
| ProgressStart (p : obj)
| AddTask (p task : obj) (description total : pyval)
| ProgressUpdate (p : obj) (task : option obj) (kwargs : list (string * pyval))
| ConsolePrint (c : obj) (text : string)
| ProgressStop (p : obj)
| NewRichHandler (h c : obj).
(* [NewRichHandler h c] is [RichHandler(console=c, ...)] with its
   formatter set. *)

(** The fields of an instance. *)
Record self : Type := {
  console : obj;
  disable : bool;
  progress : option obj;
  main_task : option obj;
  sub_task : option obj;
  _started : bool;
  _old_handlers : list obj
}.

(** The handlers of the root logger, the calls made to [rich] so far,
    and the identity of the next object to be created. *)
Record world : Type := {
  handlers : list obj;
  rich : list rich_call;
  next : obj
}.

Definition P (A : Type) : Type := self -> world -> A * self * world.

Definition unit_ {A} (a : A) : P A := fun s w => (a, s, w).

Definition then_ {A B} (c : P A) (k : A -> P B) : P B :=
  fun s w => let '(a, s', w') := c s w in k a s' w'.

Notation "x <~ c ;; k" := (then_ c (fun x => k))
  (at level 61, c at next level, right associativity).
Notation "c ;;; k" := (then_ c (fun _ => k))
  (at level 61, right associativity).

Definition read {A} (f : self -> A) : P A := fun s w => (f s, s, w).

Definition set_progress (p : option obj) : P unit :=
  fun s w =>
    (tt, {| console := console s; disable := disable s; progress := p;
            main_task := main_task s; sub_task := sub_task s;
            _started := _started s; _old_handlers := _old_handlers s |}, w).

Definition set_main_task (t : option obj) : P unit :=
  fun s w =>
    (tt, {| console := console s; disable := disable s; progress := progress s;
            main_task := t; sub_task := sub_task s;
            _started := _started s; _old_handlers := _old_handlers s |}, w).

Definition set_started (b : bool) : P unit :=
  fun s w =>
    (tt, {| console := console s; disable := disable s; progress := progress s;
            main_task := main_task s; sub_task := sub_task s;
            _started := b; _old_handlers := _old_handlers s |}, w).

Definition set_old_handlers (hs : list obj) : P unit :=
  fun s w =>
    (tt, {| console := console s; disable := disable s; progress := progress s;
            main_task := main_task s; sub_task := sub_task s;
            _started := _started s; _old_handlers := hs |}, w).

(** A new object. *)
Definition fresh : P obj :=
  fun s w =>
    (next w, s, {| handlers := handlers w; rich := rich w; next := S (next w) |}).

Definition call_rich (c : rich_call) : P unit :=
  fun s w =>
    (tt, s, {| handlers := handlers w; rich := rich w ++ [c]; next := next w |}).

(** [root_logger.handlers[:]] *)
Definition root_handlers : P (list obj) := fun s w => (handlers w, s, w).

(** [root_logger.handlers.clear()] *)
Definition handlers_clear : P unit :=
  fun s w => (tt, s, {| handlers := []; rich := rich w; next := next w |}).

(** [Logger.addHandler]: the handler is appended unless the logger has
    it already. *)
Definition add_handler (hs : list obj) (h : obj) : list obj :=
  if existsb (Nat.eqb h) hs then hs else hs ++ [h].

Definition addHandler (h : obj) : P unit :=
  fun s w =>
    (tt, s, {| handlers := add_handler (handlers w) h; rich := rich w; next := next w |}).

(** [for handler in hs: root_logger.addHandler(handler)] *)
Fixpoint add_handlers (hs : list obj) : P unit :=
  match hs with
  | [] => unit_ tt
  | h :: r => addHandler h ;;; add_handlers r
  end.

(** [Console()] *)
Definition Console (w : world) : obj * world :=
  (next w,
   {| handlers := handlers w; rich := rich w ++ [NewConsole (next w)];
      next := S (next w) |}).

(** [TorcpProgress.__init__]; an instance of [rich]'s [Console] is true.
<<
    self.console = console or Console()
    self.disable = disable
    self.progress = None
    self.main_task = None
    self.sub_task = None
    self._started = False
    self._old_handlers = []
>> *)
Definition __init__ (console : option obj) (disable : bool) (w : world)
  : self * world :=
  let '(c, w') :=
    match console with
    | Some c => (c, w)
    | None => Console w
    end in
  ({| console := c; disable := disable; progress := None; main_task := None;
      sub_task := None; _started := false; _old_handlers := [] |}, w').

(** [TorcpProgress.start]
<<
    if self.disable:
        return
    self.progress = Progress(..., console=self.console, transient=False)
    self.progress.start()
    self.main_task = self.progress.add_task(description, total=total_items, status="")
    self._started = True
    root_logger = logging.getLogger()
    self._old_handlers = root_logger.handlers[:]
    root_logger.handlers.clear()
    rich_handler = RichHandler(console=self.progress.console, ...)
    rich_handler.setFormatter(logging.Formatter("%(message)s"))
    root_logger.addHandler(rich_handler)
>> *)
Definition start (total_items description : pyval) : P unit :=
  off <~ read disable ;;
  if off then unit_ tt
  else
    c <~ read console ;;
    p <~ fresh ;;
    call_rich (NewProgress p c) ;;;
    set_progress (Some p) ;;;
    call_rich (ProgressStart p) ;;;
    t <~ fresh ;;
    call_rich (AddTask p t description total_items) ;;;
    set_main_task (Some t) ;;;
    set_started true ;;;
    hs <~ root_handlers ;;
    set_old_handlers hs ;;;
    handlers_clear ;;;
    rich_handler <~ fresh ;;
    call_rich (NewRichHandler rich_handler c) ;;;
    addHandler rich_handler.

(** [self.disable or not self._started or not self.progress]; an
    instance of [Progress] is true. *)
Definition idle (s : self) : bool :=
  disable s || negb (_started s) ||
  match progress s with
  | Some _ => false
  | None => true
  end.

(** The keyword arguments [update] collects, in the order it tests them. *)
Definition update_kwargs (advance description status : pyval)
  : list (string * pyval) :=
  (if truthy advance then [("advance", advance)] else [])
    ++ (match description with
        | PyNone => []
        | _ => [("description", description)]
        end)
    ++ (match status with
        | PyNone => []
        | _ => [("status", status)]
        end).

(** [self.progress.update(self.main_task, **kwargs)] *)
Definition progress_update (kwargs : list (string * pyval)) : P unit :=
  p <~ read progress ;;
  t <~ read main_task ;;
  match p with
  | Some p => call_rich (ProgressUpdate p t kwargs)
  | None => unit_ tt
  end.

(** [TorcpProgress.update]
<<
    if self.disable or not self._started or not self.progress:
        return
    update_kwargs = {}
    if advance:
        update_kwargs['advance'] = advance
    if description is not None:
        update_kwargs['description'] = description
    if status is not None:
        update_kwargs['status'] = status
    if update_kwargs:
        self.progress.update(self.main_task, **update_kwargs)
>> *)
Definition update (advance description status : pyval) : P unit :=
  quiet <~ read idle ;;
  if quiet then unit_ tt
  else
    match update_kwargs advance description status with
    | [] => unit_ tt
    | kwargs => progress_update kwargs
    end.

(** [TorcpProgress.set_status]
<<
    if self.disable or not self._started or not self.progress:
        return
    self.progress.update(self.main_task, status=status)
>> *)
Definition set_status (status : pyval) : P unit :=
  quiet <~ read idle ;;
  if quiet then unit_ tt
  else progress_update [("status", status)].

(** [TorcpProgress.log]; the console of a [Progress] is the one it was
    made with.
<<
    if self.disable or not self._started or not self.progress:
        return
    self.progress.console.print(f"  [dim]{message}[/dim]")
>> *)
Definition log (message : pyval) : P unit :=
  quiet <~ read idle ;;
  if quiet then unit_ tt
  else
    c <~ read console ;;
    call_rich (ConsolePrint c ("  [dim]" ++ py_str message ++ "[/dim]")).

(** [TorcpProgress.stop]
<<
    if self.disable or not self._started or not self.progress:
        return
    self.progress.stop()
    self._started = False
    root_logger = logging.getLogger()
    root_logger.handlers.clear()
    for handler in self._old_handlers:
        root_logger.addHandler(handler)
    self._old_handlers = []
>> *)
Definition stop : P unit :=
  quiet <~ read idle ;;
  if quiet then unit_ tt
  else
    p <~ read progress ;;
    match p with
    | Some p => call_rich (ProgressStop p)
    | None => unit_ tt
    end ;;;
    set_started false ;;;
    handlers_clear ;;;
    hs <~ read _old_handlers ;;
    add_handlers hs ;;;
    set_old_handlers [].

(** One call of a method by the caller. *)
Inductive call : Type :=
| Start (total_items description : pyval)
| Update (advance description status : pyval)
| SetStatus (status : pyval)
| Log (message : pyval)
| Stop.

Definition run_call (c : call) (s : self) (w : world) : self * world :=
  let '(_, s', w') :=
    match c with
    | Start total_items description => start total_items description s w
    | Update advance description status => update advance description status s w
    | SetStatus status => set_status status s w
    | Log message => log message s w
    | Stop => stop s w
    end in
  (s', w').

Fixpoint run (cs : list call) (s : self) (w : world) : self * world :=
  match cs with
  | [] => (s, w)
  | c :: r => let '(s', w') := run_call c s w in run r s' w'
  end.

(** A call that reports: [update], [set_status] or [log]. *)
Definition reports (c : call) : bool :=
  match c with
  | Update _ _ _ | SetStatus _ | Log _ => true
  | Start _ _ | Stop => false
  end.

(** One use of the bar: [start], reports, [stop]. *)
Definition session (total_items description : pyval) (body : list call) : list call :=
  Start total_items description :: body ++ [Stop].

(** Several uses in a row. *)
Fixpoint sessions (l : list (pyval * pyval * list call)) : list call :=
  match l with
  | [] => []
  | (total_items, description, body) :: r =>
      session total_items description body ++ sessions r
  end.

Definition is_start (c : call) : bool :=
  match c with
  | Start _ _ => true
  | _ => false
  end.

(** The handlers [stop] puts back: the saved ones, each once. *)
Definition restored (hs : list obj) : list obj :=
  fold_left add_handler hs [].

End TorcpProgress.

(** * Properties *)

(** ** Strings and keys *)

Lemma lower_app (a b : string) : lower (a ++ b) = lower a ++ lower b.
Proof.
  induction a as [|c a IH]; simpl.
  - reflexivity.
  - now rewrite IH.
Qed.

Lemma lower_char_space (c : ascii) : is_space c = true -> lower_char c = c.
Proof.
  unfold is_space, lower_char.
  generalize (nat_of_ascii c) as n; intros n H.
  destruct ((65 <=? n)%nat && (n <=? 90)%nat) eqn:E; [|reflexivity].
  apply andb_true_iff in E as [E1 E2].
  apply Nat.leb_le in E1, E2.
  apply orb_true_iff in H as [H|H];
    apply andb_true_iff in H as [H1 H2];
    apply Nat.leb_le in H1, H2; lia.
Qed.

Lemma lower_blank (ws : string) : blank ws = true -> lower ws = ws.
Proof.
  induction ws as [|c r IH]; simpl; intros H.
  - reflexivity.
  - apply andb_true_iff in H as [Hc Hr].
    now rewrite (lower_char_space c Hc), (IH Hr).
Qed.

Lemma rstrip_blank (ws : string) : blank ws = true -> rstrip ws = "".
Proof.
  induction ws as [|c r IH]; simpl; intros H.
  - reflexivity.
  - apply andb_true_iff in H as [Hc Hr].
    now rewrite (IH Hr), Hc.
Qed.

Lemma rstrip_app_blank (s ws : string) :
  blank ws = true -> rstrip (s ++ ws) = rstrip s.
Proof.
  intros H. induction s as [|c r IH]; simpl.
  - now apply rstrip_blank.
  - now rewrite IH.
Qed.

Lemma strip_blank_prefix (ws s : string) :
  blank ws = true -> strip (ws ++ s) = strip s.
Proof.
  unfold strip. induction ws as [|c r IH]; simpl; intros H.
  - reflexivity.
  - apply andb_true_iff in H as [Hc Hr].
    specialize (IH Hr).
    destruct (rstrip (r ++ s)) as [|a b]; simpl; rewrite Hc; exact IH.
Qed.

Lemma strip_surrounded (ws1 s ws2 : string) :
  blank ws1 = true -> blank ws2 = true -> strip (ws1 ++ s ++ ws2) = strip s.
Proof.
  intros H1 H2. rewrite (strip_blank_prefix ws1 _ H1).
  unfold strip. now rewrite (rstrip_app_blank s ws2 H2).
Qed.

(** The title field of a key, for any [str]: the empty title normalises
    to itself. *)
Lemma normalized_title (s : string) :
  (if truthy (PyStr s) then let? l := py_lower (PyStr s) in Ret (strip l) else Ret "")
  = Ret (strip (lower s)).
Proof.
  simpl. destruct (String.eqb_spec s "") as [->|_]; reflexivity.
Qed.

Lemma make_key_str_title (media year : pyval) (s : string) :
  _make_key media (PyStr s) year =
  let? media_type_str :=
    (if truthy media then py_lower media else Ret "unknown") in
  Ret (media_type_str ++ "|" ++ strip (lower s) ++ "|"
         ++ (if truthy year then py_str year else "0")).
Proof.
  unfold _make_key. now rewrite normalized_title.
Qed.

Lemma make_key_any_year (m t : option string) (year : pyval) :
  _make_key (opt_str m) (opt_str t) year
  = Ret (media_field m ++ "|" ++ title_field t ++ "|"
           ++ (if truthy year then py_str year else "0")).
Proof.
  destruct t as [t|]; [simpl opt_str; rewrite make_key_str_title|unfold _make_key];
    destruct m as [m|]; simpl;
    try destruct (String.eqb_spec m "") as [->|_]; reflexivity.
Qed.

Lemma make_key_fields (m t : option string) (y : option Z) :
  _make_key (opt_str m) (opt_str t) (opt_int y) = Ret (key_of_fields m t y).
Proof.
  rewrite make_key_any_year. unfold key_of_fields.
  destruct y as [y|]; simpl; [|reflexivity].
  destruct (Z.eqb_spec y 0) as [->|_]; reflexivity.
Qed.

Lemma make_key_padding (media year : pyval) (t t' ws1 ws2 : string) :
  blank ws1 = true -> blank ws2 = true -> lower t = lower t' ->
  _make_key media (PyStr (ws1 ++ t ++ ws2)) year = _make_key media (PyStr t') year.
Proof.
  intros H1 H2 Hl.
  rewrite !make_key_str_title, !lower_app.
  rewrite (lower_blank ws1 H1), (lower_blank ws2 H2), Hl.
  now rewrite (strip_surrounded ws1 (lower t') ws2 H1 H2).
Qed.

(** C5. Key normalisation is a total function of the query: on a media
    type and a title that are a [str] or [None] and a year that is an
    [int] or [None] it returns the lowercased media type (["unknown"]
    when absent, as [None] or as the empty string), the lowercased and
    trimmed title (empty when absent)
    and the stringified year (["0"] when absent), joined with ["|"]; the
    key does not depend on the casing of the title nor on white space
    around it; [key(media, "  The Matrix ", 1999)] is
    [key(media, "the matrix", 1999)] and [key("Movie", None, None)] is
    ["movie||0"].  Whatever the year is, the key is its [str], or ["0"]
    when it is false. *)
Theorem make_key_normalization :
  (forall (m t : option string) (y : option Z),
      _make_key (opt_str m) (opt_str t) (opt_int y) = Ret (key_of_fields m t y))
  /\ (forall (m t : option string) (year : pyval),
         _make_key (opt_str m) (opt_str t) year
         = Ret (media_field m ++ "|" ++ title_field t ++ "|"
                  ++ (if truthy year then py_str year else "0")))
  /\ (forall (media year : pyval) (t t' ws1 ws2 : string),
         blank ws1 = true -> blank ws2 = true -> lower t = lower t' ->
         _make_key media (PyStr (ws1 ++ t ++ ws2)) year
         = _make_key media (PyStr t') year)
  /\ (forall media : pyval,
         _make_key media (PyStr "  The Matrix ") (PyInt 1999)
         = _make_key media (PyStr "the matrix") (PyInt 1999))
  /\ _make_key (PyStr "Movie") PyNone PyNone = Ret "movie||0".
Proof.
  split; [|split; [|split; [|split]]].
  - exact make_key_fields.
  - exact make_key_any_year.
  - exact make_key_padding.
  - intros media.
    exact (make_key_padding media (PyInt 1999) "The Matrix" "the matrix" "  " " "
             eq_refl eq_refl eq_refl).
  - reflexivity.
Qed.


(** ** Dicts *)

Lemma dict_lookup_set_same (k : string) (v : pyval) (d : list (string * pyval)) :
  dict_lookup k (dict_set k v d) = Some v.
Proof.
  induction d as [|[k' v'] r IH]; simpl.
  - now rewrite String.eqb_refl.
  - destruct (String.eqb_spec k k') as [->|Hne]; simpl.
    + now rewrite String.eqb_refl.
    + destruct (String.eqb_spec k k'); [contradiction|exact IH].
Qed.

Lemma dict_lookup_set_other (k k' : string) (v : pyval) (d : list (string * pyval)) :
  k <> k' -> dict_lookup k' (dict_set k v d) = dict_lookup k' d.
Proof.
  intros Hne. induction d as [|[k0 v0] r IH]; simpl.
  - destruct (String.eqb_spec k' k); [congruence|reflexivity].
  - destruct (String.eqb_spec k k0) as [->|H0]; simpl.
    + destruct (String.eqb_spec k' k0); [congruence|reflexivity].
    + now rewrite IH.
Qed.

Lemma dict_lookup_del_same (k : string) (d : list (string * pyval)) :
  dict_lookup k (dict_del k d) = None.
Proof.
  induction d as [|[k' v'] r IH]; simpl.
  - reflexivity.
  - destruct (String.eqb_spec k k') as [->|Hne]; simpl.
    + exact IH.
    + destruct (String.eqb_spec k k'); [contradiction|exact IH].
Qed.

Lemma dict_lookup_del_other (k k' : string) (d : list (string * pyval)) :
  k <> k' -> dict_lookup k' (dict_del k d) = dict_lookup k' d.
Proof.
  intros Hne. induction d as [|[k0 v0] r IH]; simpl.
  - reflexivity.
  - destruct (String.eqb_spec k k0) as [->|H0]; simpl.
    + destruct (String.eqb_spec k' k0); [congruence|exact IH].
    + now rewrite IH.
Qed.

(** ** The methods, case by case *)

Ltac unfold_m :=
  cbv beta iota zeta delta
    [bind ret raise lift try_except get_disabled get_cache get_dirty
     set_disabled set_cache set_dirty logger sys get_fs set_fs
     os_path_exists os_makedirs read_file write_file os_remove
     _get_cache_dir _get_cache_path] in *.

(** Run a method: simplify, rewrite with what is known, and again. *)
Tactic Notation "run" "with" tactic3(known) :=
  unfold_m; repeat (progress (simpl; known)).

Section Properties.

Context {rt : Runtime}.

(** [_is_expired] on a dict: the test of the specification, and the two
    ways a parsed date leaves it. *)
Lemma is_expired_dict (now : Z) (d : list (string * pyval)) :
  _is_expired now (PyDict d) =
  match dict_lookup "timestamp" d with
  | Some (PyStr ts) =>
      match fromisoformat ts with
      | None => Ret true
      | Some dt =>
          if MAX_US <? wall dt + timedelta_days TTL_DAYS then Raise OverflowError
          else match dt with
               | Naive t => Ret (t + timedelta_days TTL_DAYS <? now)
               | Aware _ => Ret true
               end
      end
  | _ => Ret true
  end.
Proof.
  unfold _is_expired, py_contains, py_getitem, bindO.
  destruct (dict_lookup "timestamp" d) as [v|]; simpl; [|reflexivity].
  destruct v; try reflexivity.
  unfold py_fromisoformat.
  destruct (fromisoformat s) as [dt|]; [|reflexivity].
  unfold datetime_add, tryO.
  destruct (MAX_US <? _); [reflexivity|].
  destruct dt; reflexivity.
Qed.

(** A list or a [str] is expired, with the word in it or not: the word
    cannot index it.  A number, a boolean or [None] cannot be searched:
    the [TypeError] of the first test is outside the [try]. *)
Lemma is_expired_sequence (now : Z) (e : pyval) :
  (exists l, e = PyList l) \/ (exists s, e = PyStr s) ->
  _is_expired now e = Ret true.
Proof.
  intros [[l ->]|[s ->]]; unfold _is_expired, py_contains, bindO.
  - destruct (existsb (eq_str "timestamp") l); reflexivity.
  - destruct (str_contains "timestamp" s); reflexivity.
Qed.

Lemma is_expired_scalar (now : Z) (e : pyval) :
  py_len e = Raise TypeError -> _is_expired now e = Raise TypeError.
Proof.
  destruct e; try discriminate; reflexivity.
Qed.

(** A date in the last 30 days of the year 9999 has no expiry: the sum
    is an [OverflowError], which the [try] does not catch. *)
Lemma is_expired_overflow (now : Z) (d : list (string * pyval)) (ts : string)
      (dt : datetime) :
  dict_lookup "timestamp" d = Some (PyStr ts) ->
  fromisoformat ts = Some dt ->
  MAX_US < wall dt + timedelta_days TTL_DAYS ->
  _is_expired now (PyDict d) = Raise OverflowError.
Proof.
  intros Hts Hparse Hov. rewrite is_expired_dict, Hts, Hparse.
  apply Z.ltb_lt in Hov. now rewrite Hov.
Qed.

Lemma is_expired_tuple (now : Z) (l : list pyval) :
  _is_expired now (PyTuple l) = Ret true.
Proof.
  unfold _is_expired, py_contains, bindO.
  destruct (existsb (eq_str "timestamp") l); reflexivity.
Qed.

(** Only a dict that is fresh is not expired. *)
Lemma is_expired_false (now : Z) (e : pyval) :
  _is_expired now e = Ret false -> fresh now e = true.
Proof.
  destruct e as [| b | z | s | l | d | l]; try discriminate;
    try (rewrite is_expired_tuple; discriminate).
  - unfold _is_expired, py_contains, bindO.
    destruct (str_contains "timestamp" s); discriminate.
  - unfold _is_expired, py_contains, bindO.
    destruct (existsb (eq_str "timestamp") l); discriminate.
  - rewrite is_expired_dict. unfold fresh.
    destruct (dict_lookup "timestamp" d) as [v|]; [|discriminate].
    destruct v; try discriminate.
    destruct (fromisoformat s) as [dt|]; [|discriminate].
    destruct (MAX_US <? wall dt + timedelta_days TTL_DAYS); [discriminate|].
    destruct dt as [t|t]; [|discriminate].
    intros H. injection H as H.
    apply Z.ltb_ge in H. now apply Z.leb_le.
Qed.

Lemma get_disabled_none (now : Z) (key : string) (s : self) (w : world) :
  disabled s = true -> get now key s w = (Ret PyNone, s, w).
Proof.
  intros H. unfold get. unfold_m. now rewrite H.
Qed.

Lemma get_miss (now : Z) (key : string) (s : self) (w : world)
      (c : list (string * pyval)) :
  cache s = PyDict c -> dict_lookup key c = None ->
  get now key s w = (Ret PyNone, s, w).
Proof.
  intros Hc Hk. unfold get. unfold_m.
  destruct (disabled s); [reflexivity|].
  rewrite Hc. simpl. now rewrite Hk.
Qed.

Lemma get_hit (now : Z) (key : string) (s : self) (w : world)
      (c : list (string * pyval)) (entry : pyval) :
  disabled s = false -> cache s = PyDict c -> dict_lookup key c = Some entry ->
  get now key s w =
  match _is_expired now entry with
  | Ret true =>
      (Ret PyNone,
       {| disabled := false; cache := PyDict (dict_del key c); _dirty := true |},
       logged w (LogExpired key))
  | Ret false => (Ret entry, s, w)
  | Raise e => (Raise e, s, w)
  end.
Proof.
  intros Hd Hc Hk. unfold get. unfold_m.
  rewrite Hd, Hc. simpl. rewrite Hk. simpl.
  destruct (_is_expired now entry) as [[|]|e]; try reflexivity.
  simpl. rewrite Hc. simpl. rewrite Hk, Hd. reflexivity.
Qed.

(** Whatever the instance holds, [get] returns [None] or a fresh entry,
    and then it changes nothing. *)
Lemma get_returns_fresh (now : Z) (key : string) (s s' : self) (w w' : world)
      (e : pyval) :
  get now key s w = (Ret e, s', w') ->
  e = PyNone \/ (fresh now e = true /\ s' = s /\ w' = w).
Proof.
  unfold get. unfold_m.
  destruct (disabled s) eqn:Hd; [intros H; injection H as <- _ _; now left|].
  destruct (py_contains key (cache s)) as [found|ex] eqn:Hin; [|discriminate].
  destruct found; simpl; [|intros H; injection H as <- _ _; now left].
  destruct (py_getitem (cache s) key) as [entry|ex] eqn:Hget; [|discriminate].
  destruct (_is_expired now entry) as [[|]|ex] eqn:Hexp; [| |discriminate].
  - simpl. destruct (py_delitem (cache s) key); [|discriminate].
    simpl. intros H; injection H as <- _ _; now left.
  - intros H; injection H as <- <- <-. right.
    split; [now apply is_expired_false|split; reflexivity].
Qed.

Lemma cache_inv_enabled (s : self) (c : list (string * pyval)) (key : string)
      (entry : pyval) :
  cache_inv s -> cache s = PyDict c -> dict_lookup key c = Some entry ->
  disabled s = false.
Proof.
  intros Hinv Hc Hk. destruct (disabled s) eqn:Hd; [|reflexivity].
  rewrite (Hinv Hd) in Hc. injection Hc as <-. discriminate.
Qed.

(** C1. [get] never returns an entry whose timestamp is older than the
    TTL of 30 days: what it returns is [None] or an entry that is fresh
    at the time of the call.  When the stored entry is stale (its
    timestamp is missing, is not an ISO-8601 text, or is more than 30
    days old) [get] returns [None], deletes the key, and only it, from
    the mapping and sets the dirty flag.  The comparison is strict: an entry whose
    timestamp is [t] is evicted exactly when [now > t + TTL]. *)
Theorem get_evicts_expired :
  (forall (now : Z) (key : string) (s s' : self) (w w' : world) (e : pyval),
      get now key s w = (Ret e, s', w') ->
      e = PyNone \/ (fresh now e = true /\ s' = s /\ w' = w))
  /\ (forall (now : Z) (key : string) (s : self) (w : world)
             (c d : list (string * pyval)),
         cache_inv s -> cache s = PyDict c -> dict_lookup key c = Some (PyDict d) ->
         now <= MAX_US -> stale now d = true ->
         get now key s w =
           (Ret PyNone,
            {| disabled := false; cache := PyDict (dict_del key c); _dirty := true |},
            logged w (LogExpired key))
         /\ dict_lookup key (dict_del key c) = None
         /\ forall k, k <> key -> dict_lookup k (dict_del key c) = dict_lookup k c)
  /\ (forall (now : Z) (key : string) (s : self) (w : world)
             (c d : list (string * pyval)) (ts : string) (t : Z),
         cache_inv s -> cache s = PyDict c -> dict_lookup key c = Some (PyDict d) ->
         dict_lookup "timestamp" d = Some (PyStr ts) ->
         fromisoformat ts = Some (Naive t) ->
         t + timedelta_days TTL_DAYS <= MAX_US ->
         get now key s w =
           if t + timedelta_days TTL_DAYS <? now
           then (Ret PyNone,
                 {| disabled := false; cache := PyDict (dict_del key c); _dirty := true |},
                 logged w (LogExpired key))
           else (Ret (PyDict d), s, w)).
Proof.
  split; [|split].
  - exact get_returns_fresh.
  - intros now key s w c d Hinv Hc Hk Hnow Hstale.
    split; [|split; [apply dict_lookup_del_same|]];
      [|intros k Hne; now apply dict_lookup_del_other].
    rewrite (get_hit now key s w c (PyDict d)
               (cache_inv_enabled s c key _ Hinv Hc Hk) Hc Hk).
    rewrite is_expired_dict. unfold stale in Hstale.
    destruct (dict_lookup "timestamp" d) as [v|]; [|reflexivity].
    destruct v; try reflexivity.
    destruct (fromisoformat s0) as [[t|t]|]; try reflexivity; [|discriminate].
    apply Z.ltb_lt in Hstale.
    destruct (Z.ltb_spec MAX_US (wall (Naive t) + timedelta_days TTL_DAYS)) as [Hov|_].
    + cbn [wall] in Hov. lia.
    + apply Z.ltb_lt in Hstale. now rewrite Hstale.
  - intros now key s w c d ts t Hinv Hc Hk Hts Hparse Hmax.
    rewrite (get_hit now key s w c (PyDict d)
               (cache_inv_enabled s c key _ Hinv Hc Hk) Hc Hk).
    rewrite is_expired_dict, Hts, Hparse.
    destruct (Z.ltb_spec MAX_US (wall (Naive t) + timedelta_days TTL_DAYS)) as [Hov|_].
    + cbn [wall] in Hov. lia.
    + destruct (t + timedelta_days TTL_DAYS <? now); reflexivity.
Qed.

Lemma set_enabled (now : Z) (key : string) (s : self) (w : world)
      (c e : list (string * pyval)) :
  disabled s = false -> cache s = PyDict c ->
  set now key (PyDict e) s w =
  (Ret tt,
   {| disabled := false;
      cache := PyDict (dict_set key (PyDict (stamp now e)) c);
      _dirty := true |},
   w).
Proof.
  intros Hd Hc. unfold set. unfold_m.
  rewrite Hd. simpl. rewrite Hc. simpl. now rewrite Hd.
Qed.

Lemma stamped_is_fresh (now now' : Z) (e : list (string * pyval)) :
  fromisoformat (isoformat now) = Some (Naive now) ->
  now + timedelta_days TTL_DAYS <= MAX_US ->
  now' <= now + timedelta_days TTL_DAYS ->
  _is_expired now' (PyDict (stamp now e)) = Ret false.
Proof.
  intros Hiso Hmax Hle.
  rewrite is_expired_dict. unfold stamp.
  rewrite dict_lookup_set_same, Hiso.
  destruct (Z.ltb_spec MAX_US (wall (Naive now) + timedelta_days TTL_DAYS)) as [Hov|_].
  - cbn [wall] in Hov. lia.
  - destruct (Z.ltb_spec (now + timedelta_days TTL_DAYS) now'); [lia|reflexivity].
Qed.

(** C8. On a cache that is not disabled, [set(key, entry)] stamps the
    entry's [timestamp] with the current time whatever the caller put
    there, leaves its other fields, stores it under the key in place of
    any previous entry and sets the dirty flag; a
    [get(key)] that follows, at once or at any time within the TTL,
    returns that entry. *)
Theorem set_stamps_and_stores
        (now now' : Z) (key : string) (s : self) (w : world)
        (c e : list (string * pyval)) :
  disabled s = false -> cache s = PyDict c ->
  fromisoformat (isoformat now) = Some (Naive now) ->
  now + timedelta_days TTL_DAYS <= MAX_US ->
  now' <= now + timedelta_days TTL_DAYS ->
  let stored := PyDict (stamp now e) in
  let s' := {| disabled := false;
               cache := PyDict (dict_set key stored c);
               _dirty := true |} in
  set now key (PyDict e) s w = (Ret tt, s', w)
  /\ dict_lookup "timestamp" (stamp now e) = Some (PyStr (isoformat now))
  /\ (forall k, k <> "timestamp" -> dict_lookup k (stamp now e) = dict_lookup k e)
  /\ dict_lookup key (dict_set key stored c) = Some stored
  /\ get now' key s' w = (Ret stored, s', w)
  /\ get now key s' w = (Ret stored, s', w).
Proof.
  intros Hd Hc Hiso Hmax Hle stored s'.
  assert (Hget : forall n, n <= now + timedelta_days TTL_DAYS ->
                           get n key s' w = (Ret stored, s', w)).
  { intros n Hn.
    rewrite (get_hit n key s' w (dict_set key stored c) stored eq_refl eq_refl
               (dict_lookup_set_same key stored c)).
    unfold stored. now rewrite (stamped_is_fresh now n e Hiso Hmax Hn). }
  repeat apply conj.
  - now apply set_enabled.
  - apply dict_lookup_set_same.
  - intros k Hk. apply dict_lookup_set_other. congruence.
  - apply dict_lookup_set_same.
  - now apply Hget.
  - apply Hget. unfold timedelta_days, TTL_DAYS, US_PER_DAY. lia.
Qed.

(** C7. [clear] empties the in-memory mapping and sets the dirty flag in
    every state, and in the same call, whatever the dirty flag was, asks
    whether the cache file exists and removes it when it does; a removal
    that fails is logged as a warning and not raised, and the mapping is
    cleared all the same.  Afterwards [get] returns [None] for every
    key. *)
Theorem clear_empties_and_deletes (s : self) (w : world) :
  let s' := {| disabled := disabled s; cache := PyDict []; _dirty := true |} in
  (exists w',
      clear s w = (Ret tt, s', w')
      /\ match file (fs w) with
         | None => w' = traced w [SysExists CachePath]
         | Some _ =>
             trace w' = (trace w ++ [SysExists CachePath; SysRemove])%list
             /\ if remove_fails (fs w)
                then fs w' = fs w
                     /\ log w' = (log w ++ [LogDeleteFailed OSError])%list
                     /\ level_of (LogDeleteFailed OSError) = WARNING
                else fs w' = with_file (fs w) None
                     /\ log w' = (log w ++ [LogCleared])%list
         end)
  /\ (forall (now : Z) (key : string) (w'' : world),
         get now key s' w'' = (Ret PyNone, s', w'')).
Proof.
  intros s'. split.
  - unfold clear. unfold_m. simpl.
    destruct (file (fs w)) as [text|] eqn:Hf; simpl.
    + destruct (remove_fails (fs w)) eqn:Hr; simpl.
      * eexists. split; [reflexivity|]. simpl.
        rewrite <- app_assoc. repeat split.
      * rewrite Hf. simpl. eexists. split; [reflexivity|]. simpl.
        rewrite <- app_assoc. repeat split.
    + eexists. split; reflexivity.
  - intros now key w''. now apply (get_miss now key s' w'' []).
Qed.

Lemma close_clean (now : Z) (s : self) (w : world) :
  _dirty s = false -> close now s w = (Ret tt, s, w).
Proof.
  intros H. unfold close. unfold_m. now rewrite H.
Qed.

(** What one [_save] does to the trace. *)
Lemma save_trace (now : Z) (s : self) (w : world) :
  exists t, trace (snd (_save now s w)) = (trace w ++ t)%list /\ (writes t <= 1)%nat.
Proof.
  unfold _save. unfold_m.
  destruct (disabled s); simpl.
  - exists []. split; [now rewrite app_nil_r|simpl; lia].
  - destruct (dir_exists (fs w)); simpl.
    + exists [SysExists CacheDir; SysOpenWrite].
      split; [|simpl; lia].
      destruct (write_fault (fs w)); simpl;
        try (destruct (py_len (cache s)) as [n|e]; simpl;
             [|destruct (isinstance e OSError || false); simpl]);
        now rewrite <- app_assoc.
    + destruct (mkdir_fails (fs w)); simpl.
      * exists [SysExists CacheDir; SysMakedirs].
        split; [now rewrite <- app_assoc|simpl; lia].
      * exists [SysExists CacheDir; SysMakedirs; SysOpenWrite].
        split; [|simpl; lia].
        destruct (write_fault (fs w)); simpl;
          try (destruct (py_len (cache s)) as [n|e]; simpl;
               [|destruct (isinstance e OSError || false); simpl]);
          now rewrite <- !app_assoc.
Qed.

Lemma close_trace (now : Z) (s : self) (w : world) :
  exists t, trace (snd (close now s w)) = (trace w ++ t)%list /\ (writes t <= 1)%nat.
Proof.
  destruct (save_trace now s w) as [t [Ht Hn]].
  unfold close. unfold_m.
  destruct (_dirty s).
  - exists t. split; [|exact Hn].
    destruct (_save now s w) as [[[u|e] s1] w1]; exact Ht.
  - exists []. split; [now rewrite app_nil_r|simpl; lia].
Qed.

Lemma close_returns_clean (now : Z) (s s1 : self) (w w1 : world) :
  close now s w = (Ret tt, s1, w1) -> _dirty s1 = false.
Proof.
  unfold close. unfold_m.
  destruct (_dirty s) eqn:Hd.
  - destruct (_save now s w) as [[[u|e] s0] w0]; [|discriminate].
    intros H. injection H as <- _. reflexivity.
  - intros H. injection H as <- _. exact Hd.
Qed.

(** C9. [close] called twice in a row writes the cache file at most
    once: a [close] that returns leaves the dirty flag false, a second
    [close] then does nothing in any world, and the two calls in
    sequence are the first one alone. *)
Theorem close_twice (now1 now2 : Z) (s : self) (w : world) :
  (close now1 ;; close now2) s w = close now1 s w
  /\ (exists t, trace (snd ((close now1 ;; close now2) s w)) = (trace w ++ t)%list
                /\ (writes t <= 1)%nat)
  /\ (forall (s1 : self) (w1 : world),
         close now1 s w = (Ret tt, s1, w1) ->
         _dirty s1 = false
         /\ forall w2 : world, close now2 s1 w2 = (Ret tt, s1, w2)).
Proof.
  assert (Hseq : (close now1 ;; close now2) s w = close now1 s w).
  { unfold bind at 1.
    destruct (close now1 s w) as [[[[]|e] s1] w1] eqn:H1; [|reflexivity].
    apply close_clean. now apply (close_returns_clean now1 s s1 w w1). }
  split; [exact Hseq|split].
  - rewrite Hseq. apply close_trace.
  - intros s1 w1 H1.
    pose proof (close_returns_clean now1 s s1 w w1 H1) as Hclean.
    split; [exact Hclean|].
    intros w2. now apply close_clean.
Qed.

(** A call on a disabled instance with an empty mapping leaves both. *)
Lemma run_call_disabled (now : Z) (c : call) (s s' : self) (w w' : world)
      (r : outcome pyval) :
  disabled s = true -> cache s = PyDict [] ->
  run_call now c s w = (r, s', w') ->
  disabled s' = true /\ cache s' = PyDict [].
Proof.
  intros Hd Hc. destruct s as [d0 c0 dirty]. simpl in Hd, Hc. subst d0 c0.
  destruct c; unfold run_call, get_by_search, set_by_search, get, set, clear, close, _save;
    unfold_m; simpl.
  - intros H; injection H as _ <- _; now split.
  - destruct (_make_key media_type title year); simpl;
      intros H; injection H as _ <- _; now split.
  - intros H; injection H as _ <- _; now split.
  - destruct (_make_key media_type title year); simpl;
      intros H; injection H as _ <- _; now split.
  - destruct (file (fs w)); simpl.
    + destruct (remove_fails (fs w)); simpl.
      * intros H; injection H as _ <- _; now split.
      * destruct (file (fs w)); simpl; intros H; injection H as _ <- _; now split.
    + intros H; injection H as _ <- _; now split.
  - destruct dirty; simpl; intros H; injection H as _ <- _; now split.
Qed.

Lemma new_disabled (w : world) :
  new true w = (Ret {| disabled := true; cache := PyDict []; _dirty := false |}, w).
Proof. reflexivity. Qed.

(** C10. A disabled instance has an empty mapping when the constructor
    returns, which it does without a load or any other access to the
    world, and after every sequence of calls of [get], [get_by_search],
    [set], [set_by_search], [clear] and [close]. *)
Theorem disabled_cache_stays_empty :
  (forall w : world,
      new true w = (Ret {| disabled := true; cache := PyDict []; _dirty := false |}, w))
  /\ (forall s : self, reachable true s -> disabled s = true /\ cache s = PyDict []).
Proof.
  split; [exact new_disabled|].
  intros s H. induction H as [w w' s Hnew | s s' now c w w' r _ [IHd IHc] Hrun].
  - rewrite new_disabled in Hnew. injection Hnew as <- _. now split.
  - exact (run_call_disabled now c s s' w w' r IHd IHc Hrun).
Qed.

(** ** Loading *)

Lemma new_missing_file (w : world) :
  file (fs w) = None ->
  new false w = (Ret empty_self, traced w [SysExists CachePath]).
Proof.
  intros Hf. unfold new, __init__, _load.
  run with (rewrite ?Hf). reflexivity.
Qed.

Lemma new_unreadable_file (w : world) (text : string) :
  file (fs w) = Some text -> read_fails (fs w) = true ->
  new false w =
  (Ret empty_self,
   logged (traced w [SysExists CachePath; SysOpenRead]) (LogLoadFailed OSError)).
Proof.
  intros Hf Hr. unfold new, __init__, _load, logged, traced.
  run with (rewrite ?Hf, ?Hr). now rewrite <- app_assoc.
Qed.

Lemma new_invalid_json (w : world) (text : string) :
  file (fs w) = Some text -> read_fails (fs w) = false ->
  json_loads text = Raise JSONDecodeError ->
  new false w =
  (Ret empty_self,
   logged (traced w [SysExists CachePath; SysOpenRead]) (LogLoadFailed JSONDecodeError)).
Proof.
  intros Hf Hr Hj. unfold new, __init__, _load, logged, traced.
  run with (rewrite ?Hf, ?Hr, ?Hj). now rewrite <- app_assoc.
Qed.

Lemma new_document (w : world) (text : string) (d : list (string * pyval))
      (entries : pyval) (n : nat) :
  file (fs w) = Some text -> read_fails (fs w) = false ->
  json_loads text = Ret (PyDict d) ->
  dict_lookup "entries" d = Some entries ->
  py_len entries = Ret n ->
  new false w =
  (Ret {| disabled := false; cache := entries; _dirty := false |},
   logged (traced w [SysExists CachePath; SysOpenRead]) (LogLoaded n)).
Proof.
  intros Hf Hr Hj He Hn. unfold new, __init__, _load, logged, traced.
  run with (rewrite ?Hf, ?Hr, ?Hj, ?He, ?Hn). now rewrite <- app_assoc.
Qed.

(** A document without [entries] is an empty cache. *)
Lemma new_document_without_entries (w : world) (text : string)
      (d : list (string * pyval)) :
  file (fs w) = Some text -> read_fails (fs w) = false ->
  json_loads text = Ret (PyDict d) ->
  dict_lookup "entries" d = None ->
  new false w =
  (Ret empty_self,
   logged (traced w [SysExists CachePath; SysOpenRead]) (LogLoaded 0)).
Proof.
  intros Hf Hr Hj He. unfold new, __init__, _load, logged, traced.
  run with (rewrite ?Hf, ?Hr, ?Hj, ?He). now rewrite <- app_assoc.
Qed.

(** [entries] that have no [len], as [null] or a number: the
    [TypeError] of the log message reaches the caller. *)
Lemma new_entries_without_len (w : world) (text : string)
      (d : list (string * pyval)) (entries : pyval) :
  file (fs w) = Some text -> read_fails (fs w) = false ->
  json_loads text = Ret (PyDict d) ->
  dict_lookup "entries" d = Some entries ->
  py_len entries = Raise TypeError ->
  new false w = (Raise TypeError, traced w [SysExists CachePath; SysOpenRead]).
Proof.
  intros Hf Hr Hj He Hn. unfold new, __init__, _load, traced.
  run with (rewrite ?Hf, ?Hr, ?Hj, ?He, ?Hn). now rewrite <- app_assoc.
Qed.

(** A file whose JSON text is not an object: [data.get] raises, and no
    handler of [_load] catches it. *)
Lemma new_not_an_object (w : world) (text : string) (v : pyval) :
  file (fs w) = Some text -> read_fails (fs w) = false ->
  json_loads text = Ret v ->
  (forall d, v <> PyDict d) ->
  new false w = (Raise AttributeError, traced w [SysExists CachePath; SysOpenRead]).
Proof.
  intros Hf Hr Hj Hv. unfold new, __init__, _load, traced.
  run with (rewrite ?Hf, ?Hr, ?Hj). rewrite <- app_assoc.
  destruct v; try reflexivity. now destruct (Hv d).
Qed.

(** ** Saving *)

Lemma close_persists (now : Z) (s : self) (w : world) (c : list (string * pyval)) :
  disabled s = false -> _dirty s = true -> cache s = PyDict c ->
  dir_exists (fs w) = true \/ mkdir_fails (fs w) = false ->
  write_fault (fs w) = WriteOk ->
  exists w',
    close now s w =
      (Ret tt, {| disabled := false; cache := PyDict c; _dirty := false |}, w')
    /\ fs w' = with_file (with_dir (fs w) true)
                 (Some (json_dumps (document now (PyDict c))))
    /\ log w' = (log w ++ [LogSaved (List.length c)])%list
    /\ (writes (trace w') = S (writes (trace w)))%nat.
Proof.
  intros Hd Hdirty Hc Hdir Hw. unfold close, _save.
  assert (Hwr : forall t, writes (t ++ [SysOpenWrite]) = S (writes t)).
  { induction t as [|x t IH]; [reflexivity|]. destruct x; simpl; now rewrite IH. }
  assert (Hex : forall t x, x <> SysOpenWrite -> writes (t ++ [x]) = writes t).
  { intros t x Hx. induction t as [|y t IH].
    - destruct x; try reflexivity. congruence.
    - destruct y; simpl; now rewrite IH. }
  destruct (dir_exists (fs w)) eqn:He.
  - run with (rewrite ?Hdirty, ?Hd, ?He, ?Hw, ?Hc).
    eexists. split; [reflexivity|]. simpl.
    split; [|split; [reflexivity|]].
    + unfold with_file, with_dir. simpl. now rewrite He.
    + rewrite Hwr, Hex; [reflexivity|discriminate].
  - destruct Hdir as [Hdir|Hdir]; [discriminate|].
    run with (rewrite ?Hdirty, ?Hd, ?He, ?Hdir, ?Hw, ?Hc).
    eexists. split; [reflexivity|]. simpl.
    split; [reflexivity|split; [reflexivity|]].
    rewrite Hwr, !Hex; [reflexivity|discriminate|discriminate].
Qed.

(** A failure of the [open] or of the write is logged and not raised,
    and the dirty flag is cleared. *)
Lemma close_swallows_write_failure (now : Z) (s : self) (w : world) :
  disabled s = false -> _dirty s = true ->
  dir_exists (fs w) = true \/ mkdir_fails (fs w) = false ->
  write_fault (fs w) <> WriteOk ->
  exists w',
    close now s w =
      (Ret tt, {| disabled := false; cache := cache s; _dirty := false |}, w')
    /\ log w' = (log w ++ [LogSaveFailed OSError])%list
    /\ level_of (LogSaveFailed OSError) = WARNING.
Proof.
  intros Hd Hdirty Hdir Hw. unfold close, _save.
  destruct (dir_exists (fs w)) eqn:He.
  - destruct (write_fault (fs w)) eqn:Hf; [congruence| |];
      run with (rewrite ?Hdirty, ?Hd, ?He, ?Hf);
      eexists; (split; [reflexivity|split; reflexivity]).
  - destruct Hdir as [Hdir|Hdir]; [discriminate|].
    destruct (write_fault (fs w)) eqn:Hf; [congruence| |];
      run with (rewrite ?Hdirty, ?Hd, ?He, ?Hdir, ?Hf);
      eexists; (split; [reflexivity|split; reflexivity]).
Qed.

(** A failure of [os.makedirs] is outside the [try]: it reaches the
    caller, before the file is opened and before the dirty flag is
    cleared. *)
Lemma close_mkdir_failure (now : Z) (s : self) (w : world) :
  disabled s = false -> _dirty s = true ->
  dir_exists (fs w) = false -> mkdir_fails (fs w) = true ->
  close now s w = (Raise OSError, s, traced w [SysExists CacheDir; SysMakedirs]).
Proof.
  intros Hd Hdirty He Hm. unfold close, _save, traced.
  run with (rewrite ?Hdirty, ?Hd, ?He, ?Hm). now rewrite <- app_assoc.
Qed.

(** ** Disabled instances *)

(** Every call but [clear] leaves the world of a disabled instance as it
    is: no system call, no record in the log. *)
Lemma disabled_call_no_io (now : Z) (c : call) (s : self) (w : world) :
  disabled s = true -> c <> Clear ->
  exists r s', run_call now c s w = (r, s', w)
               /\ (forall key, c = Get key -> r = Ret PyNone)
               /\ (forall key e, c = Set_ key e -> s' = s).
Proof.
  intros Hd Hc.
  destruct c; unfold run_call, get_by_search, set_by_search, get, set, close, _save;
    try congruence;
    try destruct (_make_key media_type title year).
  1-6: run with (rewrite ?Hd); eexists _, _;
    (split; [reflexivity|split; intros; try reflexivity; discriminate]).
  destruct (_dirty s) eqn:Hdirty;
    run with (rewrite ?Hd, ?Hdirty); eexists _, _;
    (split; [reflexivity|split; intros; discriminate]).
Qed.

(** [clear] has no test of [disabled]: it removes the file. *)
Lemma clear_disabled_removes (s : self) (w : world) (text : string) :
  disabled s = true -> file (fs w) = Some text -> remove_fails (fs w) = false ->
  clear s w =
  (Ret tt,
   {| disabled := true; cache := PyDict []; _dirty := true |},
   {| fs := with_file (fs w) None;
      log := log w ++ [LogCleared];
      trace := trace w ++ [SysExists CachePath; SysRemove] |}).
Proof.
  intros Hd Hf Hr. unfold clear.
  run with (rewrite ?Hd, ?Hf, ?Hr). now rewrite <- app_assoc.
Qed.

(** ** Round trip *)

Lemma get_by_search_key (now : Z) (media_type title year : pyval) (key : string)
      (s : self) (w : world) :
  _make_key media_type title year = Ret key ->
  get_by_search now media_type title year s w = get now key s w.
Proof.
  intros Hk. unfold get_by_search, bind, lift. now rewrite Hk.
Qed.

Lemma set_by_search_key (now : Z) (media_type title year entry : pyval)
      (key : string) (s : self) (w : world) :
  _make_key media_type title year = Ret key ->
  set_by_search now media_type title year entry s w = set now key entry s w.
Proof.
  intros Hk. unfold set_by_search, bind, lift. now rewrite Hk.
Qed.


End Properties.

(** ** Where the code leaves the specification *)

(** C2. A disabled instance is constructed without any access to the
    file system, but its [clear] tests the cache file and removes it:
    here the file of an earlier run is deleted by a disabled instance. *)
Theorem disabled_clear_deletes_file :
  let w := boot (plain_fs true (Some "{}")) in
  let s := {| disabled := true; cache := PyDict []; _dirty := false |} in
  new (rt := Py.runtime) true w = (Ret s, w)
  /\ clear s w =
     (Ret tt,
      {| disabled := true; cache := PyDict []; _dirty := true |},
      {| fs := plain_fs true None;
         log := [LogCleared];
         trace := [SysExists CachePath; SysRemove] |}).
Proof.
  split; reflexivity.
Qed.

(** C3. A cache file that holds JSON which is not an object makes the
    constructor raise: [data.get] is an [AttributeError] on a list, and
    [_load] catches [JSONDecodeError] and [IOError] only.  A file that is
    not UTF-8 raises [UnicodeDecodeError] the same way. *)
Theorem load_non_object_raises :
  new (rt := Py.runtime) false (boot (plain_fs true (Some "[]")))
  = (Raise AttributeError,
     traced (boot (plain_fs true (Some "[]"))) [SysExists CachePath; SysOpenRead])
  /\ fst (new (rt := Py.runtime) false
            (boot (plain_fs true (Some (String (ascii_of_nat 255) EmptyString)))))
     = Raise UnicodeDecodeError.
Proof.
  split; reflexivity.
Qed.

(** C4. With the dirty flag set and a cache directory that is missing
    and cannot be created, [close] raises the [OSError] of
    [os.makedirs], which is outside the [try] of [_save]; nothing is
    logged and the dirty flag stays set. *)
Theorem close_mkdir_failure_raises :
  let s := {| disabled := false;
              cache := PyDict [("movie|dune|2021", PyDict (stamp (rt := Py.runtime) new_year_2024 [("id", PyInt 438631)]))];
              _dirty := true |} in
  close (rt := Py.runtime) (new_year_2024 + 1) s (boot locked_home)
  = (Raise OSError, s,
     {| fs := locked_home; log := []; trace := [SysExists CacheDir; SysMakedirs] |})
  /\ _dirty s = true.
Proof.
  split; reflexivity.
Qed.


(** ** The theorems at work *)

Lemma get_evicts_expired_witness :
  let entry := PyDict [("id", PyInt 438631);
                       ("timestamp", PyStr "2024-01-01T00:00:00")] in
  let s := {| disabled := false;
              cache := PyDict [("movie|dune|2021", entry)];
              _dirty := false |} in
  let w := boot (plain_fs true None) in
  get (rt := Py.runtime) (new_year_2024 + days 31) "movie|dune|2021" s w
  = (Ret PyNone,
     {| disabled := false; cache := PyDict []; _dirty := true |},
     logged w (LogExpired "movie|dune|2021"))
  /\ get (rt := Py.runtime) (new_year_2024 + days 30) "movie|dune|2021" s w
     = (Ret entry, s, w).
Proof.
  intros entry s w. split.
  - refine (proj1 (proj1 (proj2 (get_evicts_expired (rt := Py.runtime)))
                     (new_year_2024 + days 31) "movie|dune|2021" s w
                     [("movie|dune|2021", entry)]
                     [("id", PyInt 438631); ("timestamp", PyStr "2024-01-01T00:00:00")]
                     _ eq_refl eq_refl _ _)).
    + intros H. simpl in H. discriminate H.
    + vm_compute. discriminate.
    + vm_compute. reflexivity.
  - refine (proj2 (proj2 (get_evicts_expired (rt := Py.runtime)))
              (new_year_2024 + days 30) "movie|dune|2021" s w
              [("movie|dune|2021", entry)]
              [("id", PyInt 438631); ("timestamp", PyStr "2024-01-01T00:00:00")]
              "2024-01-01T00:00:00" new_year_2024
              _ eq_refl eq_refl eq_refl _ _).
    + intros H. simpl in H. discriminate H.
    + vm_compute. reflexivity.
    + vm_compute. discriminate.
Defined.

Lemma make_key_normalization_witness :
  _make_key (PyStr "tv") (PyStr (" " ++ "Dark" ++ "  ")) (PyInt 2017)
  = _make_key (PyStr "tv") (PyStr "DARK") (PyInt 2017).
Proof.
  apply (proj1 (proj2 (proj2 make_key_normalization))); reflexivity.
Defined.


Lemma set_stamps_and_stores_witness :
  let s' := {| disabled := false;
               cache := PyDict [("movie|the matrix|1999",
                                 PyDict [("id", PyInt 603);
                                         ("timestamp", PyStr "2024-01-01T00:00:00")])];
               _dirty := true |} in
  let w := boot (plain_fs true None) in
  set (rt := Py.runtime) new_year_2024 "movie|the matrix|1999"
    (PyDict [("id", PyInt 603); ("timestamp", PyStr "1999-03-31T00:00:00")])
    empty_self w
  = (Ret tt, s', w)
  /\ get (rt := Py.runtime) new_year_2024 "movie|the matrix|1999" s' w
     = (Ret (PyDict [("id", PyInt 603); ("timestamp", PyStr "2024-01-01T00:00:00")]),
        s', w).
Proof.
  intros s' w.
  destruct (set_stamps_and_stores (rt := Py.runtime)
              new_year_2024 (new_year_2024 + days 30) "movie|the matrix|1999"
              empty_self w []
              [("id", PyInt 603); ("timestamp", PyStr "1999-03-31T00:00:00")])
    as [H1 [_ [_ [_ [_ H6]]]]].
  - reflexivity.
  - reflexivity.
  - vm_compute. reflexivity.
  - vm_compute. discriminate.
  - vm_compute. discriminate.
  - split; [exact H1|exact H6].
Defined.

Lemma close_twice_witness :
  let s := {| disabled := false; cache := PyDict []; _dirty := true |} in
  let w1 := {| fs := plain_fs true
                       (Some (Py.dumps (document (rt := Py.runtime) new_year_2024 (PyDict []))));
               log := [LogSaved 0];
               trace := [SysExists CacheDir; SysMakedirs; SysOpenWrite] |} in
  close (rt := Py.runtime) new_year_2024 s (boot (plain_fs false None))
  = (Ret tt, empty_self, w1)
  /\ _dirty empty_self = false
  /\ forall w2 : world,
      close (rt := Py.runtime) (new_year_2024 + 1) empty_self w2 = (Ret tt, empty_self, w2).
Proof.
  intros s w1.
  assert (H : close (rt := Py.runtime) new_year_2024 s (boot (plain_fs false None))
              = (Ret tt, empty_self, w1)) by reflexivity.
  split; [exact H|].
  exact (proj2 (proj2 (close_twice (rt := Py.runtime) new_year_2024 (new_year_2024 + 1)
                         s (boot (plain_fs false None))))
           empty_self w1 H).
Defined.

Lemma disabled_cache_stays_empty_witness :
  let s := {| disabled := true; cache := PyDict []; _dirty := true |} in
  reachable (rt := Py.runtime) true s
  /\ disabled s = true /\ cache s = PyDict [].
Proof.
  intros s.
  assert (H : reachable (rt := Py.runtime) true s).
  { eapply (reach_call true _ s 0 Clear (boot (plain_fs true (Some "{}")))).
    - eapply (reach_call true _ _ 0 (Set_ "k" (PyDict [])) (boot (plain_fs true (Some "{}")))).
      + eapply (reach_new true (boot (plain_fs true (Some "{}")))). reflexivity.
      + reflexivity.
    - reflexivity. }
  split; [exact H|].
  exact (proj2 (disabled_cache_stays_empty (rt := Py.runtime)) s H).
Defined.

(** * More of the cache *)

(** ** Texts *)

Lemma lower_char_idem (c : ascii) : lower_char (lower_char c) = lower_char c.
Proof.
  destruct c as [[] [] [] [] [] [] [] []]; reflexivity.
Qed.

Lemma lower_idem (s : string) : lower (lower s) = lower s.
Proof.
  induction s as [|c r IH]; simpl.
  - reflexivity.
  - now rewrite lower_char_idem, IH.
Qed.

Lemma is_space_lower_char (c : ascii) : is_space (lower_char c) = is_space c.
Proof.
  destruct c as [[] [] [] [] [] [] [] []]; reflexivity.
Qed.

Lemma lower_lstrip (s : string) : lower (lstrip s) = lstrip (lower s).
Proof.
  induction s as [|c r IH]; simpl.
  - reflexivity.
  - rewrite is_space_lower_char. destruct (is_space c); [exact IH|reflexivity].
Qed.

Lemma lower_rstrip (s : string) : lower (rstrip s) = rstrip (lower s).
Proof.
  induction s as [|c r IH]; simpl.
  - reflexivity.
  - rewrite <- IH, is_space_lower_char.
    destruct (rstrip r) as [|a b]; simpl.
    + destruct (is_space c); reflexivity.
    + reflexivity.
Qed.

Lemma lower_strip (s : string) : lower (strip s) = strip (lower s).
Proof.
  unfold strip. now rewrite lower_lstrip, lower_rstrip.
Qed.

Lemma lstrip_idem (s : string) : lstrip (lstrip s) = lstrip s.
Proof.
  induction s as [|c r IH]; simpl.
  - reflexivity.
  - destruct (is_space c) eqn:E; [exact IH|]. simpl. now rewrite E.
Qed.

Lemma rstrip_idem (s : string) : rstrip (rstrip s) = rstrip s.
Proof.
  induction s as [|c r IH]; simpl.
  - reflexivity.
  - destruct (rstrip r) as [|a b] eqn:E.
    + destruct (is_space c) eqn:Ec; simpl; [reflexivity|now rewrite Ec].
    + change (rstrip (String c (String a b))) with
        (match rstrip (String a b) with
         | EmptyString => if is_space c then EmptyString else String c EmptyString
         | r' => String c r'
         end).
      now rewrite IH.
Qed.

Lemma rstrip_lstrip (s : string) : rstrip (lstrip s) = lstrip (rstrip s).
Proof.
  induction s as [|c r IH]; simpl.
  - reflexivity.
  - destruct (is_space c) eqn:Ec.
    + rewrite IH. destruct (rstrip r) as [|a b]; simpl; [reflexivity|now rewrite Ec].
    + change (rstrip (String c r)) with
        (match rstrip r with
         | EmptyString => if is_space c then EmptyString else String c EmptyString
         | r' => String c r'
         end).
      rewrite Ec. destruct (rstrip r) as [|a b]; simpl; now rewrite Ec.
Qed.

Lemma strip_idem (s : string) : strip (strip s) = strip s.
Proof.
  unfold strip.
  now rewrite rstrip_lstrip, lstrip_idem, rstrip_idem.
Qed.

Lemma has_char_app (c : ascii) (a b : string) :
  has_char c (a ++ b) = has_char c a || has_char c b.
Proof.
  induction a as [|x a IH]; simpl.
  - reflexivity.
  - now rewrite IH, orb_assoc.
Qed.

Lemma has_char_lstrip (c : ascii) (s : string) :
  has_char c s = false -> has_char c (lstrip s) = false.
Proof.
  induction s as [|x r IH]; simpl; intros H.
  - reflexivity.
  - apply orb_false_iff in H as [Hx Hr].
    destruct (is_space x); [now apply IH|]. simpl. now rewrite Hx, Hr.
Qed.

Lemma has_char_rstrip (c : ascii) (s : string) :
  has_char c s = false -> has_char c (rstrip s) = false.
Proof.
  induction s as [|x r IH]; simpl; intros H.
  - reflexivity.
  - apply orb_false_iff in H as [Hx Hr]. specialize (IH Hr).
    destruct (rstrip r) as [|a b].
    + destruct (is_space x); simpl; [reflexivity|now rewrite Hx].
    + simpl. rewrite Hx. exact IH.
Qed.

Lemma has_bar_lower (s : string) : has_char "|" (lower s) = has_char "|" s.
Proof.
  induction s as [|x r IH]; simpl.
  - reflexivity.
  - rewrite IH. f_equal.
    destruct x as [[] [] [] [] [] [] [] []]; reflexivity.
Qed.

(** A text without the separator, the separator, and a rest: the text
    and the rest are read back. *)
Lemma split_at_bar (a a' r r' : string) :
  has_char "|" a = false -> has_char "|" a' = false ->
  a ++ "|" ++ r = a' ++ "|" ++ r' -> a = a' /\ r = r'.
Proof.
  revert a'. induction a as [|x a IH]; intros [|x' a'] Ha Ha' H; simpl in *.
  - injection H as H. now split.
  - injection H as Hx _. subst x'. simpl in Ha'. discriminate.
  - injection H as Hx _. subst x. simpl in Ha. discriminate.
  - injection H as Hx H. subst x'.
    apply orb_false_iff in Ha as [_ Ha]. apply orb_false_iff in Ha' as [_ Ha'].
    destruct (IH a' Ha Ha' H) as [-> ->]. now split.
Qed.

Lemma uint_digits_no_bar (d : Decimal.uint) :
  has_char "|" (NilEmpty.string_of_uint d) = false.
Proof.
  induction d; simpl; try reflexivity; exact IHd.
Qed.

Lemma str_of_int_no_bar (z : Z) : has_char "|" (str_of_int z) = false.
Proof.
  unfold str_of_int, NilZero.string_of_int, NilZero.string_of_uint.
  destruct (Z.to_int z) as [d|d]; destruct d;
    try reflexivity; simpl; apply uint_digits_no_bar.
Qed.

Lemma to_int_not_nil (z : Z) :
  Z.to_int z <> Decimal.Pos Decimal.Nil /\ Z.to_int z <> Decimal.Neg Decimal.Nil.
Proof.
  destruct z as [|p|p]; simpl; split; try discriminate;
    intros H; injection H as H; now apply (DecimalPos.Unsigned.to_uint_nonnil p).
Qed.

Lemma str_of_int_inj (z z' : Z) : str_of_int z = str_of_int z' -> z = z'.
Proof.
  unfold str_of_int. intros H.
  apply DecimalZ.to_int_inj.
  destruct (to_int_not_nil z) as [Hp Hn], (to_int_not_nil z') as [Hp' Hn'].
  pose proof (NilZero.isi _ Hp Hn) as E. pose proof (NilZero.isi _ Hp' Hn') as E'.
  rewrite H in E. rewrite E in E'. now injection E'.
Qed.

Lemma str_of_int_nonempty (z : Z) : (str_of_int z =? "")%string = false.
Proof.
  destruct (String.eqb_spec (str_of_int z) "") as [E|]; [|reflexivity].
  destruct (to_int_not_nil z) as [Hp Hn].
  pose proof (NilZero.isi _ Hp Hn) as H. unfold str_of_int in E.
  rewrite E in H. discriminate.
Qed.

(** ** Keys *)

Lemma media_field_no_bar (m : option string) :
  no_bar_opt m = true -> has_char "|" (media_field m) = false.
Proof.
  destruct m as [s|]; simpl; [|reflexivity].
  unfold no_bar. intros H. apply negb_true_iff in H.
  destruct (s =? "")%string; [reflexivity|]. now rewrite has_bar_lower.
Qed.

Lemma title_field_no_bar (t : option string) :
  no_bar_opt t = true -> has_char "|" (title_field t) = false.
Proof.
  destruct t as [s|]; simpl; [|reflexivity].
  unfold no_bar, strip. intros H. apply negb_true_iff in H.
  apply has_char_lstrip, has_char_rstrip. now rewrite has_bar_lower.
Qed.

Lemma year_field_same (y y' : option Z) :
  year_field y = year_field y' -> same_year y y'.
Proof.
  destruct y as [a|], y' as [b|]; simpl; intros H.
  - now apply str_of_int_inj.
  - now apply (str_of_int_inj a 0).
  - now apply (str_of_int_inj b 0).
  - exact I.
Qed.

(** X1. Two queries whose media types and titles have no ["|"] get the
    same key only when their normalised fields are the same: the same
    lowercased media type, the same lowercased and trimmed title and the
    same year, an absent year being the year 0. *)
Theorem make_key_injective (m m' t t' : option string) (y y' : option Z) :
  no_bar_opt m = true -> no_bar_opt m' = true ->
  no_bar_opt t = true -> no_bar_opt t' = true ->
  _make_key (opt_str m) (opt_str t) (opt_int y)
  = _make_key (opt_str m') (opt_str t') (opt_int y') ->
  media_field m = media_field m'
  /\ title_field t = title_field t'
  /\ same_year y y'.
Proof.
  intros Hm Hm' Ht Ht'. rewrite !make_key_fields. unfold key_of_fields.
  intros H. injection H as H.
  destruct (split_at_bar _ _ _ _ (media_field_no_bar m Hm)
              (media_field_no_bar m' Hm') H) as [E1 H1].
  destruct (split_at_bar _ _ _ _ (title_field_no_bar t Ht)
              (title_field_no_bar t' Ht') H1) as [E2 H2].
  split; [exact E1|split; [exact E2|now apply year_field_same]].
Qed.

(** X2. Normalisation is idempotent: the key of the normalised media
    type and title is the key of the query itself. *)
Theorem make_key_idempotent (m t : string) (year : pyval) :
  _make_key (PyStr (media_field (Some m))) (PyStr (title_field (Some t))) year
  = _make_key (PyStr m) (PyStr t) year.
Proof.
  rewrite !make_key_str_title. simpl title_field.
  rewrite (lower_strip (lower t)), lower_idem, strip_idem.
  f_equal. simpl.
  destruct (String.eqb_spec m "") as [->|Hm]; [reflexivity|].
  destruct (String.eqb_spec (lower m) "") as [E|_].
  - destruct m; [contradiction|discriminate].
  - simpl. now rewrite lower_idem.
Qed.

(** X3. A year given as an [int] and the same year given as its decimal
    text get the same key, whatever the media type and the title. *)
Theorem make_key_year_text (media_type title : pyval) (n : Z) :
  _make_key media_type title (PyStr (str_of_int n))
  = _make_key media_type title (PyInt n).
Proof.
  unfold _make_key. simpl truthy. rewrite str_of_int_nonempty. simpl.
  destruct (Z.eqb_spec n 0) as [->|_]; reflexivity.
Qed.

(** Case analysis on every test a method makes. *)
Ltac split_tests :=
  repeat match goal with
         | |- context [match ?x with _ => _ end] =>
             match type of x with
             | bool => destruct x eqn:?
             | outcome _ => destruct x eqn:?
             | option _ => destruct x eqn:?
             | write_mode => destruct x eqn:?
             end; simpl
         end.

Section MoreProperties.

Context {rt : Runtime}.

(** ** Reading and writing without the disk *)

Lemma get_world (now : Z) (key : string) (s : self) (w : world) :
  fs (snd (get now key s w)) = fs w /\ trace (snd (get now key s w)) = trace w.
Proof.
  unfold get. unfold_m. split_tests; split; reflexivity.
Qed.

Lemma set_world (now : Z) (key : string) (entry : pyval) (s : self) (w : world) :
  snd (set now key entry s w) = w.
Proof.
  unfold set. unfold_m. split_tests; reflexivity.
Qed.

(** X4. [get], [get_by_search], [set] and [set_by_search] make no system
    call and leave the file system as it is, in every state and whatever
    they return or raise; [set] and [set_by_search] leave the log too. *)
Theorem get_and_set_stay_in_memory
        (now : Z) (key : string) (media_type title year entry : pyval)
        (s : self) (w : world) :
  (fs (snd (get now key s w)) = fs w
   /\ trace (snd (get now key s w)) = trace w)
  /\ (fs (snd (get_by_search now media_type title year s w)) = fs w
      /\ trace (snd (get_by_search now media_type title year s w)) = trace w)
  /\ snd (set now key entry s w) = w
  /\ snd (set_by_search now media_type title year entry s w) = w.
Proof.
  split; [apply get_world|split; [|split; [apply set_world|]]].
  - unfold get_by_search, bind, lift.
    destruct (_make_key media_type title year) as [k|e]; [apply get_world|now split].
  - unfold set_by_search, bind, lift.
    destruct (_make_key media_type title year) as [k|e]; [apply set_world|reflexivity].
Qed.

(** X5. [get] changes the instance and the world in one way only: by
    evicting the key it was asked for, with the dirty flag set and one
    debug record.  Otherwise, found, missing or raising, it changes
    nothing. *)
Theorem get_changes_only_by_eviction
        (now : Z) (key : string) (s : self) (w : world) :
  let '(r, s', w') := get now key s w in
  (s' = s /\ w' = w)
  \/ (exists c, cache s = PyDict c
                /\ r = Ret PyNone
                /\ s' = {| disabled := false;
                           cache := PyDict (dict_del key c);
                           _dirty := true |}
                /\ w' = logged w (LogExpired key)).
Proof.
  unfold get. unfold_m.
  destruct (disabled s) eqn:Hd; [now left|].
  destruct (py_contains key (cache s)) as [[|]|e]; simpl; try (now left).
  destruct (py_getitem (cache s) key) as [entry|e] eqn:Hget; simpl; [|now left].
  destruct (_is_expired now entry) as [[|]|e]; simpl; try (now left).
  destruct (cache s) as [| | | | |c|] eqn:Hc; try discriminate.
  simpl in Hget. simpl.
  destruct (dict_lookup key c); [|discriminate].
  simpl. right. exists c. now rewrite Hd.
Qed.


(** ** Saving *)

(** X6. On an instance that is not disabled, [close] with the dirty flag
    set writes one document with the whole mapping, after creating the
    directory when, and only when, it is missing; it logs the number of
    entries and clears the flag.  The file system accepts the calls. *)
Theorem close_writes_document (now : Z) (s : self) (w : world) (n : nat) :
  disabled s = false -> _dirty s = true -> py_len (cache s) = Ret n ->
  dir_exists (fs w) = true \/ mkdir_fails (fs w) = false ->
  write_fault (fs w) = WriteOk ->
  close now s w =
  (Ret tt,
   {| disabled := false; cache := cache s; _dirty := false |},
   {| fs := with_file (with_dir (fs w) true)
              (Some (json_dumps (document now (cache s))));
      log := log w ++ [LogSaved n];
      trace := trace w ++ SysExists CacheDir
                 :: (if dir_exists (fs w) then [] else [SysMakedirs])
                 ++ [SysOpenWrite] |}).
Proof.
  intros Hd Hdirty Hn Hdir Hw. unfold close, _save.
  destruct (dir_exists (fs w)) eqn:He.
  - run with (rewrite ?Hdirty, ?Hd, ?He, ?Hw, ?Hn).
    rewrite <- app_assoc. simpl.
    unfold with_file, with_dir. simpl. now rewrite He.
  - destruct Hdir as [Hdir|Hdir]; [discriminate|].
    run with (rewrite ?Hdirty, ?Hd, ?He, ?Hdir, ?Hw, ?Hn).
    now rewrite <- !app_assoc.
Qed.

(** X7. A save that fails is not tried again.  When the file cannot be
    opened or written, [close] returns, logs a warning and clears the
    dirty flag; the file is as the failure left it, and a later [close]
    does nothing, in a world that would accept the write too: the
    mapping stays unsaved until the next change. *)
Theorem failed_save_is_not_retried (now now2 : Z) (s : self) (w : world) :
  disabled s = false -> _dirty s = true ->
  dir_exists (fs w) = true \/ mkdir_fails (fs w) = false ->
  write_fault (fs w) <> WriteOk ->
  let s' := {| disabled := false; cache := cache s; _dirty := false |} in
  exists w',
    close now s w = (Ret tt, s', w')
    /\ file (fs w') = match write_fault (fs w) with
                      | DumpFails rest => Some rest
                      | _ => file (fs w)
                      end
    /\ log w' = (log w ++ [LogSaveFailed OSError])%list
    /\ level_of (LogSaveFailed OSError) = WARNING
    /\ forall w2 : world, close now2 s' w2 = (Ret tt, s', w2).
Proof.
  intros Hd Hdirty Hdir Hw s'. unfold close at 1. unfold _save.
  assert (Hlater : forall w2 : world, close now2 s' w2 = (Ret tt, s', w2))
    by (intros w2; now apply close_clean).
  destruct (dir_exists (fs w)) eqn:He.
  - destruct (write_fault (fs w)) eqn:Hf; [congruence| |];
      run with (rewrite ?Hdirty, ?Hd, ?He, ?Hf);
      eexists; (split; [reflexivity|]); simpl; repeat split; exact Hlater.
  - destruct Hdir as [Hdir|Hdir]; [discriminate|].
    destruct (write_fault (fs w)) eqn:Hf; [congruence| |];
      run with (rewrite ?Hdirty, ?Hd, ?He, ?Hdir, ?Hf);
      eexists; (split; [reflexivity|]); simpl; repeat split; exact Hlater.
Qed.

(** X8. What [close] saves, a new instance loads: the mapping of the new
    instance is the mapping that was saved, entry for entry, whatever
    the age of the entries, and the new instance is clean.  The runtime
    reads back the document it wrote. *)
Theorem saved_mapping_is_loaded
        (now : Z) (s : self) (w : world) (c : list (string * pyval)) :
  disabled s = false -> _dirty s = true -> cache s = PyDict c ->
  dir_exists (fs w) = true \/ mkdir_fails (fs w) = false ->
  write_fault (fs w) = WriteOk ->
  json_loads (json_dumps (document now (PyDict c))) = Ret (document now (PyDict c)) ->
  exists w',
    close now s w = (Ret tt, {| disabled := false; cache := PyDict c; _dirty := false |}, w')
    /\ forall w3 : world,
        file (fs w3) = file (fs w') -> read_fails (fs w3) = false ->
        exists w4,
          new false w3 =
          (Ret {| disabled := false; cache := PyDict c; _dirty := false |}, w4)
          /\ fs w4 = fs w3.
Proof.
  intros Hd Hdirty Hc Hdir Hw Hjson.
  destruct (close_persists now s w c Hd Hdirty Hc Hdir Hw) as [w' [Hclose [Hfs _]]].
  exists w'. split; [exact Hclose|].
  intros w3 Hsame Hread. rewrite Hfs in Hsame. simpl in Hsame.
  rewrite (new_document w3 _ _ (PyDict c) _ Hsame Hread Hjson eq_refl eq_refl).
  eexists. split; reflexivity.
Qed.





(** ** Loading *)

(** X12. The constructor degrades to the empty cache.  Over a missing
    file it returns the empty, clean instance after the one test of the
    path; over a file that cannot be read, or that [json.load] rejects
    with [JSONDecodeError], it returns the same instance and logs one
    warning.  The file system is left as it is. *)
Theorem new_degrades_to_empty (w : world) :
  file (fs w) = None
  \/ (exists text, file (fs w) = Some text
                   /\ (read_fails (fs w) = true
                       \/ json_loads text = Raise JSONDecodeError)) ->
  exists w',
    new false w = (Ret empty_self, w')
    /\ fs w' = fs w
    /\ writes (trace w') = writes (trace w)
    /\ match file (fs w) with
       | None => log w' = log w
       | Some _ => exists e, log w' = (log w ++ [LogLoadFailed e])%list
                             /\ level_of (LogLoadFailed e) = WARNING
       end.
Proof.
  assert (Hwr : forall t, writes (t ++ [SysExists CachePath; SysOpenRead]) = writes t).
  { induction t as [|x t IH]; [reflexivity|]. destruct x; simpl; now rewrite IH. }
  assert (Hwe : forall t, writes (t ++ [SysExists CachePath]) = writes t).
  { induction t as [|x t IH]; [reflexivity|]. destruct x; simpl; now rewrite IH. }
  intros [Hf|[text [Hf Hbad]]].
  - rewrite (new_missing_file w Hf), Hf. eexists. split; [reflexivity|].
    simpl. repeat split. apply Hwe.
  - rewrite Hf. destruct (read_fails (fs w)) eqn:Hr.
    + rewrite (new_unreadable_file w text Hf Hr). eexists. split; [reflexivity|].
      simpl. repeat split; [apply Hwr|]. now exists OSError.
    + destruct Hbad as [Hbad|Hbad]; [discriminate|].
      rewrite (new_invalid_json w text Hf Hr Hbad). eexists. split; [reflexivity|].
      simpl. repeat split; [apply Hwr|]. now exists JSONDecodeError.
Qed.

(** X13. Over a file that holds a JSON object the constructor takes the
    value of its ["entries"] as the mapping, or the empty mapping when
    the object has none, whatever else the object holds: no version is
    tested and no entry is looked at.  When that value has a length, as
    an object, an array or a text has, the instance is clean and one
    info record gives the length; when it has none, as [null], a number
    or a boolean, the constructor raises the [TypeError] of [len]. *)
Theorem new_loads_entries
        (w : world) (text : string) (d : list (string * pyval)) :
  file (fs w) = Some text -> read_fails (fs w) = false ->
  json_loads text = Ret (PyDict d) ->
  let entries := match dict_lookup "entries" d with
                 | Some v => v
                 | None => PyDict []
                 end in
  new false w =
  match py_len entries with
  | Ret n =>
      (Ret {| disabled := false; cache := entries; _dirty := false |},
       logged (traced w [SysExists CachePath; SysOpenRead]) (LogLoaded n))
  | Raise e =>
      (Raise TypeError, traced w [SysExists CachePath; SysOpenRead])
  end.
Proof.
  intros Hf Hr Hj entries. subst entries.
  destruct (dict_lookup "entries" d) as [v|] eqn:He.
  - destruct (py_len v) as [n|e] eqn:Hn.
    + exact (new_document w text d v n Hf Hr Hj He Hn).
    + assert (Hn' : py_len v = Raise TypeError)
        by (destruct v; try discriminate; reflexivity).
      exact (new_entries_without_len w text d v Hf Hr Hj He Hn').
  - exact (new_document_without_entries w text d Hf Hr Hj He).
Qed.

(** ** Disabled instances and values of the wrong shape *)

(** X14. On a disabled instance [set] followed by [get] of the same key
    returns [None] and changes neither the instance nor the world, and
    [close] writes nothing even when the dirty flag is set. *)
Theorem disabled_discards
        (now now' : Z) (key : string) (entry : pyval) (s : self) (w : world) :
  disabled s = true ->
  (set now key entry ;; get now' key) s w = (Ret PyNone, s, w)
  /\ close now s w
     = (Ret tt, {| disabled := true; cache := cache s; _dirty := false |}, w).
Proof.
  intros Hd. split.
  - unfold set, get. now run with (rewrite ?Hd).
  - destruct s as [off c dirty]. simpl in Hd. subst off.
    unfold close, _save. destruct dirty; reflexivity.
Qed.

(** X15. [set] raises [TypeError] and stores nothing when the entry is
    not a dict, and when the mapping loaded from the file is not a dict;
    the dirty flag is left as it was. *)
Theorem set_rejects_non_dict
        (now : Z) (key : string) (entry : pyval) (s : self) (w : world) :
  disabled s = false ->
  (forall e, entry <> PyDict e) \/ (forall c, cache s <> PyDict c) ->
  set now key entry s w = (Raise TypeError, s, w).
Proof.
  intros Hd H. unfold set. unfold_m. rewrite Hd.
  destruct entry as [| | | | |e|]; simpl; try reflexivity.
  destruct H as [H|H]; [now destruct (H e)|].
  destruct (cache s) as [| | | | |c|]; simpl; try reflexivity.
  now destruct (H c).
Qed.

(** X16. An entry whose timestamp carries a UTC offset is expired at any
    time: the comparison with the naive clock is a [TypeError], which
    [_is_expired] takes for an expiry, and [get] evicts the entry. *)
Theorem get_evicts_aware
        (now : Z) (key ts : string) (t : Z) (s : self) (w : world)
        (c d : list (string * pyval)) :
  disabled s = false -> cache s = PyDict c -> dict_lookup key c = Some (PyDict d) ->
  dict_lookup "timestamp" d = Some (PyStr ts) ->
  fromisoformat ts = Some (Aware t) ->
  t + timedelta_days TTL_DAYS <= MAX_US ->
  get now key s w =
  (Ret PyNone,
   {| disabled := false; cache := PyDict (dict_del key c); _dirty := true |},
   logged w (LogExpired key)).
Proof.
  intros Hd Hc Hk Hts Hparse Hmax.
  rewrite (get_hit now key s w c (PyDict d) Hd Hc Hk), is_expired_dict, Hts, Hparse.
  destruct (Z.ltb_spec MAX_US (wall (Aware t) + timedelta_days TTL_DAYS)) as [Hov|_].
  - cbn [wall] in Hov. lia.
  - reflexivity.
Qed.

(** X17. [get] can raise.  On a stored entry that is a number, a boolean
    or [None] it raises [TypeError]; on an entry whose timestamp is in
    the last 30 days of the year 9999 it raises [OverflowError].  In
    both cases the entry stays in the mapping and nothing else changes. *)
Theorem get_raises_on_bad_entry
        (now : Z) (key : string) (s : self) (w : world)
        (c : list (string * pyval)) (entry : pyval) :
  disabled s = false -> cache s = PyDict c -> dict_lookup key c = Some entry ->
  (py_len entry = Raise TypeError -> get now key s w = (Raise TypeError, s, w))
  /\ (forall d ts dt,
         entry = PyDict d ->
         dict_lookup "timestamp" d = Some (PyStr ts) ->
         fromisoformat ts = Some dt ->
         MAX_US < wall dt + timedelta_days TTL_DAYS ->
         get now key s w = (Raise OverflowError, s, w)).
Proof.
  intros Hd Hc Hk. rewrite (get_hit now key s w c entry Hd Hc Hk). split.
  - intros Hlen. now rewrite (is_expired_scalar now entry Hlen).
  - intros d ts dt -> Hts Hparse Hov.
    now rewrite (is_expired_overflow now d ts dt Hts Hparse Hov).
Qed.

(** ** Time *)

Lemma is_expired_raises_at_any_time (now now' : Z) (entry : pyval) (x : exn) :
  _is_expired now entry = Raise x -> _is_expired now' entry = Raise x.
Proof.
  destruct entry as [| b | z | s | l | d | l].
  1-3: intros H; exact H.
  - rewrite !(is_expired_sequence _ (PyStr s)) by (right; now exists s).
    discriminate.
  - rewrite !(is_expired_sequence _ (PyList l)) by (left; now exists l).
    discriminate.
  - rewrite !is_expired_dict.
    destruct (dict_lookup "timestamp" d) as [v|]; [|discriminate].
    destruct v; try discriminate.
    destruct (fromisoformat s) as [dt|]; [|discriminate].
    destruct (MAX_US <? wall dt + timedelta_days TTL_DAYS); [intros H; exact H|].
    destruct dt; [discriminate|intros H; exact H].
  - rewrite !is_expired_tuple. discriminate.
Qed.

Lemma is_expired_later (now now' : Z) (entry : pyval) :
  now <= now' ->
  _is_expired now entry = Ret true -> _is_expired now' entry = Ret true.
Proof.
  intros Hle.
  destruct entry as [| b | z | s | l | d | l]; try discriminate.
  - now rewrite !(is_expired_sequence _ (PyStr s)) by (right; now exists s).
  - now rewrite !(is_expired_sequence _ (PyList l)) by (left; now exists l).
  - rewrite !is_expired_dict.
    destruct (dict_lookup "timestamp" d) as [v|]; [|reflexivity].
    destruct v; try reflexivity.
    destruct (fromisoformat s) as [dt|]; [|reflexivity].
    destruct (MAX_US <? wall dt + timedelta_days TTL_DAYS); [discriminate|].
    destruct dt as [t|t]; [|reflexivity].
    change (timedelta_days TTL_DAYS) with 2592000000000.
    intros H. injection H as H. apply Z.ltb_lt in H.
    f_equal. apply Z.ltb_lt. lia.
  - now rewrite !is_expired_tuple.
Qed.

Lemma is_fresh_earlier (now now' : Z) (entry : pyval) :
  now <= now' ->
  _is_expired now' entry = Ret false -> _is_expired now entry = Ret false.
Proof.
  intros Hle.
  destruct entry as [| b | z | s | l | d | l]; try discriminate.
  - rewrite !(is_expired_sequence _ (PyStr s)) by (right; now exists s).
    discriminate.
  - rewrite !(is_expired_sequence _ (PyList l)) by (left; now exists l).
    discriminate.
  - rewrite !is_expired_dict.
    destruct (dict_lookup "timestamp" d) as [v|]; [|discriminate].
    destruct v; try discriminate.
    destruct (fromisoformat s) as [dt|]; [|discriminate].
    destruct (MAX_US <? wall dt + timedelta_days TTL_DAYS); [discriminate|].
    destruct dt as [t|t]; [|discriminate].
    change (timedelta_days TTL_DAYS) with 2592000000000.
    intros H. injection H as H. apply Z.ltb_ge in H.
    f_equal. apply Z.ltb_ge. lia.
  - rewrite !is_expired_tuple. discriminate.
Qed.

(** X18. Expiry is monotone in the clock.  An entry that is expired at a
    time is expired at every later time, and an entry that is not
    expired was not at any earlier time.  An entry on which the test
    raises raises the same exception at every time, earlier or later. *)
Theorem expiry_is_monotone (now now' : Z) (entry : pyval) :
  (now <= now' ->
   (_is_expired now entry = Ret true -> _is_expired now' entry = Ret true)
   /\ (_is_expired now' entry = Ret false -> _is_expired now entry = Ret false))
  /\ (forall x, _is_expired now entry = Raise x -> _is_expired now' entry = Raise x).
Proof.
  split.
  - intros Hle. split.
    + now apply is_expired_later.
    + now apply is_fresh_earlier.
  - intros x. apply is_expired_raises_at_any_time.
Qed.

(** X19. The life of an entry.  After [set] at the time [now], [get] of
    the key returns the entry at every time up to [now] plus 30 days
    included, and after that it evicts it.  The runtime reads back the
    timestamp it wrote. *)
Theorem entry_lifetime
        (now : Z) (key : string) (s : self) (w : world)
        (c e : list (string * pyval)) :
  disabled s = false -> cache s = PyDict c ->
  fromisoformat (isoformat now) = Some (Naive now) ->
  now + timedelta_days TTL_DAYS <= MAX_US ->
  let stored := PyDict (stamp now e) in
  let s' := {| disabled := false;
               cache := PyDict (dict_set key stored c);
               _dirty := true |} in
  set now key (PyDict e) s w = (Ret tt, s', w)
  /\ forall now' : Z,
      get now' key s' w =
      if now + timedelta_days TTL_DAYS <? now'
      then (Ret PyNone,
            {| disabled := false;
               cache := PyDict (dict_del key (dict_set key stored c));
               _dirty := true |},
            logged w (LogExpired key))
      else (Ret stored, s', w).
Proof.
  intros Hd Hc Hiso Hmax stored s'.
  split; [now apply set_enabled|].
  intros now'.
  rewrite (get_hit now' key s' w (dict_set key stored c) stored eq_refl eq_refl
             (dict_lookup_set_same key stored c)).
  unfold stored. rewrite is_expired_dict. unfold stamp.
  rewrite dict_lookup_set_same, Hiso.
  destruct (Z.ltb_spec MAX_US (wall (Naive now) + timedelta_days TTL_DAYS)) as [Hov|_].
  - cbn [wall] in Hov. lia.
  - destruct (now + timedelta_days TTL_DAYS <? now'); reflexivity.
Qed.

(** ** One slot for a key *)

(** X21. A search finds what was stored under another spelling: an entry
    stored by [set_by_search] under a title is returned, within the TTL,
    by [get_by_search] for any title that differs from it by casing and
    by white space around it only, with the same media type and year. *)
Theorem search_ignores_spelling
        (now now' : Z) (media_type year : pyval) (key t t' ws1 ws2 : string)
        (s : self) (w : world) (c e : list (string * pyval)) :
  _make_key media_type (PyStr t') year = Ret key ->
  blank ws1 = true -> blank ws2 = true -> lower t = lower t' ->
  disabled s = false -> cache s = PyDict c ->
  fromisoformat (isoformat now) = Some (Naive now) ->
  now + timedelta_days TTL_DAYS <= MAX_US ->
  now' <= now + timedelta_days TTL_DAYS ->
  let stored := PyDict (stamp now e) in
  (set_by_search now media_type (PyStr (ws1 ++ t ++ ws2)) year (PyDict e) ;;
   get_by_search now' media_type (PyStr t') year) s w
  = (Ret stored,
     {| disabled := false; cache := PyDict (dict_set key stored c); _dirty := true |},
     w).
Proof.
  intros Hkey H1 H2 Hl Hd Hc Hiso Hmax Hle stored.
  assert (Hkey' : _make_key media_type (PyStr (ws1 ++ t ++ ws2)) year = Ret key)
    by (now rewrite (make_key_padding media_type year t t' ws1 ws2 H1 H2 Hl)).
  unfold bind.
  rewrite (set_by_search_key now _ _ _ _ key s w Hkey').
  rewrite (set_enabled now key s w c e Hd Hc). fold stored.
  rewrite (get_by_search_key now' _ _ _ key _ _ Hkey).
  rewrite (get_hit now' key
             {| disabled := false; cache := PyDict (dict_set key stored c);
                _dirty := true |}
             w (dict_set key stored c) stored eq_refl eq_refl
             (dict_lookup_set_same key stored c)).
  unfold stored. now rewrite (stamped_is_fresh now now' e Hiso Hmax Hle).
Qed.

End MoreProperties.

(** * The progress bar *)

Module ProgressFacts.

Import TorcpProgress.

Ltac unfold_p :=
  cbv beta iota zeta delta
    [then_ unit_ read set_progress set_main_task set_started set_old_handlers
     fresh call_rich root_handlers handlers_clear addHandler progress_update] in *.

Lemma add_handlers_fold (hs : list obj) (s : self) (w : world) :
  add_handlers hs s w =
  (tt, s, {| handlers := fold_left add_handler hs (handlers w);
             rich := rich w; next := next w |}).
Proof.
  revert w. induction hs as [|h r IH]; intros w; simpl.
  - now destruct w.
  - unfold then_, addHandler. now rewrite IH.
Qed.

Lemma existsb_eqb_false (h : obj) (l : list obj) :
  ~ In h l -> existsb (Nat.eqb h) l = false.
Proof.
  intros H. induction l as [|x l IH]; simpl; [reflexivity|].
  destruct (Nat.eqb_spec h x) as [->|_]; simpl.
  - exfalso. apply H. now left.
  - apply IH. intros Hin. apply H. now right.
Qed.

Lemma fold_add_nodup (hs acc : list obj) :
  NoDup (acc ++ hs) -> fold_left add_handler hs acc = (acc ++ hs)%list.
Proof.
  revert acc. induction hs as [|h r IH]; intros acc H; simpl.
  - now rewrite app_nil_r.
  - assert (Hh : ~ In h acc).
    { apply NoDup_remove_2 in H. intros Hin. apply H. apply in_or_app. now left. }
    unfold add_handler at 2. rewrite (existsb_eqb_false h acc Hh).
    rewrite IH; rewrite <- app_assoc; [reflexivity|exact H].
Qed.

Lemma restored_nodup (hs : list obj) : NoDup hs -> restored hs = hs.
Proof.
  intros H. unfold restored. now rewrite fold_add_nodup.
Qed.

Lemma add_handler_keeps_nodup (acc : list obj) (h : obj) :
  NoDup acc -> NoDup (add_handler acc h).
Proof.
  intros H. unfold add_handler.
  destruct (existsb (Nat.eqb h) acc) eqn:E; [exact H|].
  apply NoDup_app; [exact H|repeat constructor; intros []|].
  intros x Hx [Hh|[]]. subst x.
  assert (existsb (Nat.eqb h) acc = true); [|congruence].
  apply existsb_exists. exists h. split; [exact Hx|apply Nat.eqb_refl].
Qed.

Lemma fold_add_keeps_nodup (hs acc : list obj) :
  NoDup acc -> NoDup (fold_left add_handler hs acc).
Proof.
  revert acc. induction hs as [|h r IH]; intros acc H; simpl; [exact H|].
  apply IH. now apply add_handler_keeps_nodup.
Qed.

Lemma restored_is_nodup (hs : list obj) : NoDup (restored hs).
Proof.
  apply fold_add_keeps_nodup. constructor.
Qed.

(** What a report leaves. *)
Lemma report_frame (c : call) (s : self) (w : world) :
  reports c = true ->
  exists evs,
    run_call c s w =
    (s, {| handlers := handlers w; rich := rich w ++ evs; next := next w |})
    /\ (List.length evs <= 1)%nat
    /\ (idle s = true -> evs = [])
    /\ forall ev, In ev evs ->
                  (exists p kwargs, progress s = Some p
                                    /\ ev = ProgressUpdate p (main_task s) kwargs)
                  \/ (exists text, ev = ConsolePrint (console s) text).
Proof.
  intros Hc.
  assert (Hp : idle s = false -> exists p, progress s = Some p).
  { unfold idle. destruct (progress s) as [p|]; [now exists p|].
    now rewrite !orb_true_r. }
  destruct c; try discriminate; clear Hc;
    unfold run_call, update, set_status, log, then_ at 1, read at 1;
    destruct (idle s) eqn:Hi;
    try (exists []; rewrite app_nil_r; destruct w; simpl;
         repeat split; auto; (lia || now intros ev []));
    destruct (Hp eq_refl) as [p Ep].
  - destruct (update_kwargs advance description status) as [|kv kwargs].
    + exists []. rewrite app_nil_r. destruct w; simpl.
      repeat split; auto; (lia || (try discriminate); now intros ev []).
    + unfold_p. rewrite Ep. eexists [_]. split; [reflexivity|]. simpl.
      split; [lia|split; [discriminate|]].
      intros ev [<-|[]]. left. now exists p, (kv :: kwargs).
  - unfold_p. rewrite Ep. eexists [_]. split; [reflexivity|]. simpl.
    split; [lia|split; [discriminate|]].
    intros ev [<-|[]]. left. now exists p, [("status", status)].
  - unfold_p. eexists [_]. split; [reflexivity|]. simpl.
    split; [lia|split; [discriminate|]].
    intros ev [<-|[]]. right. eexists. reflexivity.
Qed.

Lemma reports_frame (body : list call) (s : self) (w : world) :
  forallb reports body = true ->
  exists evs,
    run body s w =
    (s, {| handlers := handlers w; rich := rich w ++ evs; next := next w |}).
Proof.
  revert w. induction body as [|c r IH]; intros w H; simpl.
  - exists []. rewrite app_nil_r. now destruct w.
  - apply andb_true_iff in H as [Hc Hr].
    destruct (report_frame c s w Hc) as [evs [E _]]. rewrite E.
    destruct (IH {| handlers := handlers w; rich := rich w ++ evs; next := next w |} Hr)
      as [evs' E'].
    rewrite E'. simpl. exists (evs ++ evs')%list. now rewrite app_assoc.
Qed.

Lemma start_enabled (total_items description : pyval) (s : self) (w : world) :
  disable s = false ->
  run_call (Start total_items description) s w =
  ({| console := console s; disable := false; progress := Some (next w);
      main_task := Some (S (next w)); sub_task := sub_task s;
      _started := true; _old_handlers := handlers w |},
   {| handlers := [S (S (next w))];
      rich := rich w ++ [NewProgress (next w) (console s);
                         ProgressStart (next w);
                         AddTask (next w) (S (next w)) description total_items;
                         NewRichHandler (S (S (next w))) (console s)];
      next := S (S (S (next w))) |}).
Proof.
  intros Hd. unfold run_call, start. unfold_p. rewrite Hd. simpl.
  now rewrite Hd, <- !app_assoc.
Qed.

Lemma stop_started (s : self) (w : world) (p : obj) :
  disable s = false -> _started s = true -> progress s = Some p ->
  run_call Stop s w =
  ({| console := console s; disable := false; progress := Some p;
      main_task := main_task s; sub_task := sub_task s;
      _started := false; _old_handlers := [] |},
   {| handlers := restored (_old_handlers s);
      rich := rich w ++ [ProgressStop p];
      next := next w |}).
Proof.
  intros Hd Hs Hp. unfold run_call, stop, idle. unfold_p.
  repeat (progress (simpl; rewrite ?Hd, ?Hs, ?Hp, ?add_handlers_fold)).
  reflexivity.
Qed.

Lemma stop_idle (s : self) (w : world) :
  idle s = true -> run_call Stop s w = (s, w).
Proof.
  intros H. unfold run_call, stop. unfold_p. now rewrite H.
Qed.

Lemma run_app (a b : list call) (s : self) (w : world) :
  run (a ++ b) s w = let '(s', w') := run a s w in run b s' w'.
Proof.
  revert s w. induction a as [|c r IH]; intros s w; simpl.
  - reflexivity.
  - destruct (run_call c s w) as [s' w']. apply IH.
Qed.

Lemma session_run (total_items description : pyval) (body : list call)
      (s : self) (w : world) :
  disable s = false -> forallb reports body = true ->
  exists evs,
    run (session total_items description body) s w =
    ({| console := console s; disable := false; progress := Some (next w);
        main_task := Some (S (next w)); sub_task := sub_task s;
        _started := false; _old_handlers := [] |},
     {| handlers := restored (handlers w);
        rich := rich w ++ evs;
        next := S (S (S (next w))) |}).
Proof.
  intros Hd Hb. unfold session.
  change (run (Start total_items description :: body ++ [Stop]) s w)
    with (let '(s', w') := run_call (Start total_items description) s w in
          run (body ++ [Stop]) s' w').
  rewrite (start_enabled _ _ s w Hd), run_app.
  match goal with
  | |- context [run body ?s1 ?w1] =>
      destruct (reports_frame body s1 w1 Hb) as [evs E]; rewrite E
  end.
  simpl run.
  match goal with
  | |- context [run_call Stop ?s1 ?w1] =>
      rewrite (stop_started s1 w1 (next w) eq_refl eq_refl eq_refl)
  end.
  simpl. eexists. rewrite <- !app_assoc. reflexivity.
Qed.

(** X22. A disabled bar is inert: whatever the calls, the instance is as
    it was, nothing is asked of [rich], and the handlers of the root
    logger are not touched. *)
Theorem progress_disabled_is_inert (cs : list call) (s : self) (w : world) :
  disable s = true -> run cs s w = (s, w).
Proof.
  intros Hd. induction cs as [|c r IH]; simpl; [reflexivity|].
  assert (E : run_call c s w = (s, w)).
  { destruct c; unfold run_call, start, update, set_status, log, stop, idle;
      unfold_p; now rewrite Hd. }
  now rewrite E.
Qed.

(** X23. Before [start] and after [stop], [update], [set_status], [log]
    and [stop] do nothing: the instance, the calls made to [rich] and
    the handlers of the root logger are as they were. *)
Theorem progress_idle_calls_are_inert (cs : list call) (s : self) (w : world) :
  idle s = true -> forallb (fun c => negb (is_start c)) cs = true ->
  run cs s w = (s, w).
Proof.
  intros Hi. induction cs as [|c r IH]; simpl; [reflexivity|].
  intros H. apply andb_true_iff in H as [Hc Hr].
  assert (E : run_call c s w = (s, w)).
  { destruct c; try discriminate;
      unfold run_call, update, set_status, log, stop; unfold_p; now rewrite Hi. }
  rewrite E. now apply IH.
Qed.

(** X24. [update], [set_status] and [log] never change the instance nor
    the handlers of the root logger, and create no object; each makes at
    most one call to [rich], on the progress and the task of the
    instance or on its console, and none when the bar is idle. *)
Theorem progress_reports_change_nothing (c : call) (s : self) (w : world) :
  reports c = true ->
  exists evs,
    run_call c s w =
    (s, {| handlers := handlers w; rich := rich w ++ evs; next := next w |})
    /\ (List.length evs <= 1)%nat
    /\ (idle s = true -> evs = [])
    /\ forall ev, In ev evs ->
                  (exists p kwargs, progress s = Some p
                                    /\ ev = ProgressUpdate p (main_task s) kwargs)
                  \/ (exists text, ev = ConsolePrint (console s) text).
Proof.
  apply report_frame.
Qed.


(** X26. The bar can be used again and again: after any number of
    sessions of [start], reports and [stop], the root logger has the
    handlers it had at first, when no handler was in its list twice. *)
Theorem progress_sessions_restore_handlers
        (l : list (pyval * pyval * list call)) (s : self) (w : world) :
  disable s = false ->
  forallb (fun x => forallb reports (snd x)) l = true ->
  NoDup (handlers w) ->
  handlers (snd (run (sessions l) s w)) = handlers w.
Proof.
  revert s w. induction l as [|[[total_items description] body] r IH];
    intros s w Hd Hb Hn.
  - reflexivity.
  - cbn [forallb] in Hb. apply andb_true_iff in Hb as [Hb Hr]. cbn [snd] in Hb.
    cbn [sessions]. rewrite run_app.
    destruct (session_run total_items description body s w Hd Hb) as [evs E].
    rewrite E.
    match goal with
    | |- context [run (sessions r) ?s1 ?w1] =>
        rewrite (IH s1 w1 eq_refl Hr)
    end.
    + simpl. now apply restored_nodup.
    + simpl. apply restored_is_nodup.
Qed.

(** X27. [stop] twice is [stop] once, in every state. *)
Theorem progress_stop_is_idempotent (s : self) (w : world) :
  run [Stop; Stop] s w = run [Stop] s w.
Proof.
  simpl. destruct (idle s) eqn:Hi.
  - now rewrite !(stop_idle s w Hi).
  - unfold idle in Hi.
    destruct (disable s) eqn:Hd; [discriminate|].
    destruct (_started s) eqn:Hs; [|discriminate].
    destruct (progress s) as [p|] eqn:Hp; [|discriminate].
    rewrite (stop_started s w p Hd Hs Hp).
    now rewrite stop_idle.
Qed.


End ProgressFacts.

(** ** The further theorems at work *)

Lemma make_key_injective_witness :
  media_field (Some "TV") = media_field (Some "tv")
  /\ title_field (Some " Dark ") = title_field (Some "DARK")
  /\ same_year None (Some 0).
Proof.
  apply (make_key_injective (Some "TV") (Some "tv") (Some " Dark ") (Some "DARK")
           None (Some 0)); reflexivity.
Defined.

Lemma close_writes_document_witness :
  let s := {| disabled := false;
              cache := PyDict [("movie|dune|2021", PyDict [("id", PyInt 438631)])];
              _dirty := true |} in
  close (rt := Py.runtime) new_year_2024 s (boot (plain_fs false None))
  = (Ret tt,
     {| disabled := false; cache := cache s; _dirty := false |},
     {| fs := plain_fs true (Some (Py.dumps (document (rt := Py.runtime)
                                               new_year_2024 (cache s))));
        log := [LogSaved 1];
        trace := [SysExists CacheDir; SysMakedirs; SysOpenWrite] |}).
Proof.
  intros s.
  apply (close_writes_document (rt := Py.runtime) new_year_2024 s
           (boot (plain_fs false None)) 1); try reflexivity.
  right. reflexivity.
Defined.

Lemma failed_save_is_not_retried_witness :
  let s := {| disabled := false; cache := PyDict []; _dirty := true |} in
  let read_only := {| dir_exists := true; file := Some "[]"; read_fails := false;
                      mkdir_fails := false; write_fault := OpenFails;
                      remove_fails := false |} in
  exists w',
    close (rt := Py.runtime) new_year_2024 s (boot read_only) = (Ret tt, empty_self, w')
    /\ file (fs w') = Some "[]"
    /\ close (rt := Py.runtime) (new_year_2024 + 1) empty_self (boot (plain_fs true None))
       = (Ret tt, empty_self, boot (plain_fs true None)).
Proof.
  intros s read_only.
  destruct (failed_save_is_not_retried (rt := Py.runtime) new_year_2024
              (new_year_2024 + 1) s (boot read_only))
    as [w' [H1 [H2 [_ [_ H5]]]]].
  - reflexivity.
  - reflexivity.
  - left. reflexivity.
  - simpl. discriminate.
  - exists w'. split; [exact H1|split; [exact H2|apply H5]].
Defined.

Lemma saved_mapping_is_loaded_witness :
  let c := [("movie|dune|2021",
             PyDict [("id", PyInt 438631);
                     ("timestamp", PyStr "1999-03-31T00:00:00")])] in
  let s := {| disabled := false; cache := PyDict c; _dirty := true |} in
  exists w' w4,
    close (rt := Py.runtime) new_year_2024 s (boot (plain_fs true None))
    = (Ret tt, {| disabled := false; cache := PyDict c; _dirty := false |}, w')
    /\ new (rt := Py.runtime) false (boot (plain_fs true (file (fs w'))))
       = (Ret {| disabled := false; cache := PyDict c; _dirty := false |}, w4).
Proof.
  intros c s.
  destruct (saved_mapping_is_loaded (rt := Py.runtime) new_year_2024 s
              (boot (plain_fs true None)) c)
    as [w' [H1 H2]].
  - reflexivity.
  - reflexivity.
  - reflexivity.
  - left. reflexivity.
  - reflexivity.
  - vm_compute. reflexivity.
  - destruct (H2 (boot (plain_fs true (file (fs w')))) eq_refl eq_refl) as [w4 [H3 _]].
    exists w', w4. split; [exact H1|exact H3].
Defined.




Lemma new_degrades_to_empty_witness :
  exists w',
    new (rt := Py.runtime) false (boot (plain_fs true (Some "{not json")))
    = (Ret empty_self, w')
    /\ fs w' = plain_fs true (Some "{not json")
    /\ exists e, log w' = [LogLoadFailed e].
Proof.
  destruct (new_degrades_to_empty (rt := Py.runtime)
              (boot (plain_fs true (Some "{not json"))))
    as [w' [H1 [H2 [_ H4]]]].
  - right. exists "{not json". split; [reflexivity|right; reflexivity].
  - simpl in H4. destruct H4 as [e [H4 _]].
    exists w'. split; [exact H1|split; [exact H2|now exists e]].
Defined.

Lemma new_loads_entries_witness :
  let c := PyDict [("movie|dune|2021", PyDict [("id", PyInt 438631)])] in
  let w := boot (plain_fs true
                   (Some (Py.dumps (PyDict [("version", PyStr "0.1");
                                            ("entries", c)])))) in
  let w0 := boot (plain_fs true
                    (Some (Py.dumps (PyDict [("entries", PyNone)])))) in
  new (rt := Py.runtime) false w
  = (Ret {| disabled := false; cache := c; _dirty := false |},
     logged (traced w [SysExists CachePath; SysOpenRead]) (LogLoaded 1))
  /\ new (rt := Py.runtime) false w0
     = (Raise TypeError, traced w0 [SysExists CachePath; SysOpenRead]).
Proof.
  intros c w w0. split.
  - apply (new_loads_entries (rt := Py.runtime) w
             (Py.dumps (PyDict [("version", PyStr "0.1"); ("entries", c)]))
             [("version", PyStr "0.1"); ("entries", c)]).
    + reflexivity.
    + reflexivity.
    + vm_compute. reflexivity.
  - apply (new_loads_entries (rt := Py.runtime) w0
             (Py.dumps (PyDict [("entries", PyNone)]))
             [("entries", PyNone)]).
    + reflexivity.
    + reflexivity.
    + vm_compute. reflexivity.
Defined.

Lemma disabled_discards_witness :
  let s := {| disabled := true; cache := PyDict []; _dirty := true |} in
  let w := boot (plain_fs false None) in
  (set (rt := Py.runtime) new_year_2024 "k" (PyDict [("id", PyInt 1)]) ;;
   get (rt := Py.runtime) new_year_2024 "k") s w
  = (Ret PyNone, s, w)
  /\ close (rt := Py.runtime) new_year_2024 s w
     = (Ret tt, {| disabled := true; cache := PyDict []; _dirty := false |}, w).
Proof.
  intros s w.
  apply (disabled_discards (rt := Py.runtime) new_year_2024 new_year_2024 "k"
           (PyDict [("id", PyInt 1)]) s w).
  reflexivity.
Defined.

Lemma set_rejects_non_dict_witness :
  set (rt := Py.runtime) new_year_2024 "k" (PyList [PyInt 1]) empty_self
    (boot (plain_fs true None))
  = (Raise TypeError, empty_self, boot (plain_fs true None))
  /\ set (rt := Py.runtime) new_year_2024 "k" (PyDict [])
       {| disabled := false; cache := PyList []; _dirty := false |}
       (boot (plain_fs true None))
     = (Raise TypeError,
        {| disabled := false; cache := PyList []; _dirty := false |},
        boot (plain_fs true None)).
Proof.
  split.
  - apply (set_rejects_non_dict (rt := Py.runtime)); [reflexivity|].
    left. intros e. discriminate.
  - apply (set_rejects_non_dict (rt := Py.runtime)); [reflexivity|].
    right. intros c. simpl. discriminate.
Defined.

Lemma get_evicts_aware_witness :
  let d := [("id", PyInt 438631);
            ("timestamp", PyStr "2024-01-01T00:00:00+00:00")] in
  let s := {| disabled := false;
              cache := PyDict [("movie|dune|2021", PyDict d)];
              _dirty := false |} in
  let w := boot (plain_fs true None) in
  get (rt := Py.runtime) new_year_2024 "movie|dune|2021" s w
  = (Ret PyNone,
     {| disabled := false; cache := PyDict []; _dirty := true |},
     logged w (LogExpired "movie|dune|2021")).
Proof.
  intros d s w.
  apply (get_evicts_aware (rt := Py.runtime) new_year_2024 "movie|dune|2021"
           "2024-01-01T00:00:00+00:00" new_year_2024 s w
           [("movie|dune|2021", PyDict d)] d); try reflexivity.
  vm_compute. discriminate.
Defined.

Lemma get_raises_on_bad_entry_witness :
  let w := boot (plain_fs true None) in
  let s1 := {| disabled := false; cache := PyDict [("k", PyInt 5)]; _dirty := false |} in
  let d := [("timestamp", PyStr "9999-12-15T00:00:00")] in
  let s2 := {| disabled := false; cache := PyDict [("k", PyDict d)]; _dirty := false |} in
  get (rt := Py.runtime) new_year_2024 "k" s1 w = (Raise TypeError, s1, w)
  /\ get (rt := Py.runtime) new_year_2024 "k" s2 w = (Raise OverflowError, s2, w).
Proof.
  intros w s1 d s2. split.
  - apply (proj1 (get_raises_on_bad_entry (rt := Py.runtime) new_year_2024 "k" s1 w
                    [("k", PyInt 5)] (PyInt 5) eq_refl eq_refl eq_refl)).
    reflexivity.
  - apply (proj2 (get_raises_on_bad_entry (rt := Py.runtime) new_year_2024 "k" s2 w
                    [("k", PyDict d)] (PyDict d) eq_refl eq_refl eq_refl)
             d "9999-12-15T00:00:00" (Naive (MAX_US - days 17 + 1))).
    + reflexivity.
    + reflexivity.
    + vm_compute. reflexivity.
    + vm_compute. reflexivity.
Defined.

Lemma expiry_is_monotone_witness :
  let e := PyDict [("timestamp", PyStr "2024-01-01T00:00:00")] in
  _is_expired (rt := Py.runtime) (new_year_2024 + days 40) e = Ret true
  /\ _is_expired (rt := Py.runtime) new_year_2024 (PyInt 5) = Raise TypeError.
Proof.
  intros e. split.
  - apply (proj1 (proj1 (expiry_is_monotone (rt := Py.runtime)
                           (new_year_2024 + days 31) (new_year_2024 + days 40) e)
                    ltac:(vm_compute; discriminate))).
    vm_compute. reflexivity.
  - apply (proj2 (expiry_is_monotone (rt := Py.runtime)
                    (new_year_2024 + days 40) new_year_2024 (PyInt 5))).
    reflexivity.
Defined.

Lemma entry_lifetime_witness :
  let stored := PyDict [("id", PyInt 603);
                        ("timestamp", PyStr "2024-01-01T00:00:00")] in
  let s' := {| disabled := false;
               cache := PyDict [("movie|the matrix|1999", stored)];
               _dirty := true |} in
  let w := boot (plain_fs true None) in
  get (rt := Py.runtime) (new_year_2024 + days 30) "movie|the matrix|1999" s' w
  = (Ret stored, s', w)
  /\ get (rt := Py.runtime) (new_year_2024 + days 30 + 1) "movie|the matrix|1999" s' w
     = (Ret PyNone,
        {| disabled := false; cache := PyDict []; _dirty := true |},
        logged w (LogExpired "movie|the matrix|1999")).
Proof.
  intros stored s' w.
  destruct (entry_lifetime (rt := Py.runtime) new_year_2024 "movie|the matrix|1999"
              empty_self w [] [("id", PyInt 603)])
    as [_ H].
  - reflexivity.
  - reflexivity.
  - vm_compute. reflexivity.
  - vm_compute. discriminate.
  - split; [exact (H (new_year_2024 + days 30))
           |exact (H (new_year_2024 + days 30 + 1))].
Defined.

Lemma search_ignores_spelling_witness :
  let stored := PyDict [("id", PyInt 603);
                        ("timestamp", PyStr "2024-01-01T00:00:00")] in
  let w := boot (plain_fs true None) in
  (set_by_search (rt := Py.runtime) new_year_2024
     (PyStr "Movie") (PyStr ("  " ++ "The Matrix" ++ " ")) (PyInt 1999)
     (PyDict [("id", PyInt 603)]) ;;
   get_by_search (rt := Py.runtime) (new_year_2024 + days 1)
     (PyStr "Movie") (PyStr "the matrix") (PyInt 1999)) empty_self w
  = (Ret stored,
     {| disabled := false;
        cache := PyDict [("movie|the matrix|1999", stored)];
        _dirty := true |},
     w).
Proof.
  intros stored w.
  apply (search_ignores_spelling (rt := Py.runtime) new_year_2024
           (new_year_2024 + days 1) (PyStr "Movie") (PyInt 1999)
           "movie|the matrix|1999" "The Matrix" "the matrix" "  " " "
           empty_self w [] [("id", PyInt 603)]); try reflexivity.
  - vm_compute. discriminate.
  - vm_compute. discriminate.
Defined.

Lemma progress_disabled_is_inert_witness :
  let w := {| TorcpProgress.handlers := [1; 2]%nat;
              TorcpProgress.rich := [];
              TorcpProgress.next := 5%nat |} in
  let s := fst (TorcpProgress.__init__ (Some 0%nat) true w) in
  TorcpProgress.run
    (TorcpProgress.session (PyInt 3) (PyStr "Processing")
       [TorcpProgress.Update (PyInt 1) PyNone PyNone; TorcpProgress.Log (PyStr "x")])
    s w
  = (s, w).
Proof.
  intros w s. apply ProgressFacts.progress_disabled_is_inert. reflexivity.
Defined.

Lemma progress_idle_calls_are_inert_witness :
  let w := {| TorcpProgress.handlers := [1; 2]%nat;
              TorcpProgress.rich := [];
              TorcpProgress.next := 5%nat |} in
  let s := fst (TorcpProgress.__init__ (Some 0%nat) false w) in
  TorcpProgress.run
    [TorcpProgress.Update (PyInt 1) PyNone PyNone;
     TorcpProgress.SetStatus (PyStr "copy");
     TorcpProgress.Log (PyStr "x");
     TorcpProgress.Stop] s w
  = (s, w).
Proof.
  intros w s. apply ProgressFacts.progress_idle_calls_are_inert; reflexivity.
Defined.

Lemma progress_reports_change_nothing_witness :
  let w := {| TorcpProgress.handlers := [1; 2]%nat;
              TorcpProgress.rich := [];
              TorcpProgress.next := 5%nat |} in
  let s := fst (TorcpProgress.run [TorcpProgress.Start (PyInt 3) (PyStr "Processing")]
                  (fst (TorcpProgress.__init__ (Some 0%nat) false w)) w) in
  exists evs,
    TorcpProgress.run_call (TorcpProgress.Update (PyInt 0) (PyStr "") PyNone) s w
    = (s, {| TorcpProgress.handlers := [1; 2]%nat;
             TorcpProgress.rich := evs;
             TorcpProgress.next := 5%nat |})
    /\ (List.length evs <= 1)%nat.
Proof.
  intros w s.
  destruct (ProgressFacts.progress_reports_change_nothing
              (TorcpProgress.Update (PyInt 0) (PyStr "") PyNone) s w eq_refl)
    as [evs [H1 [H2 _]]].
  exists evs. split; [exact H1|exact H2].
Defined.


Lemma progress_sessions_restore_handlers_witness :
  let w := {| TorcpProgress.handlers := [1; 2]%nat;
              TorcpProgress.rich := [];
              TorcpProgress.next := 5%nat |} in
  let s := fst (TorcpProgress.__init__ None false w) in
  TorcpProgress.handlers
    (snd (TorcpProgress.run
            (TorcpProgress.sessions
               [(PyInt 3, PyStr "Copying", [TorcpProgress.Log (PyStr "x")]);
                (PyInt 2, PyStr "Linking", [])]) s w))
  = [1; 2]%nat.
Proof.
  intros w s.
  apply (ProgressFacts.progress_sessions_restore_handlers
           [(PyInt 3, PyStr "Copying", [TorcpProgress.Log (PyStr "x")]);
            (PyInt 2, PyStr "Linking", [])] s w).
  - reflexivity.
  - reflexivity.
  - repeat constructor; simpl; intuition discriminate.
Defined.

